(** * MCP server for MSSQL: the query gate, the tool dispatcher and the
      client session

    A shallow embedding of [backend/mcp_server/server.py] and
    [backend/mcp_server/client.py].

    Conventions of the embedding.
    - A Python [str] is a [string]; the characters modelled are the 7-bit
      ASCII ones (codes 0..127).  On these, [str.upper] maps the letters
      a..z to A..Z and keeps the length, and the white space of
      [str.strip] and of the regular expression class [\s] is the set of
      codes 9..13 and 28..32.  A theorem about the text of a statement
      takes [Py.isascii] of the statement as a hypothesis: outside ASCII
      the three Python functions do more than the model has.
    - A Python [int] is a [Z].
    - A Python [dict] used as a map is a [gmap]; a [set] is a [gset].
    - A Python exception is an [Outcome] other than [Return]; the calls
      made to the database driver are recorded in a trace, so that "no
      data access happens" is a statement about the trace. *)

From Stdlib Require Import ZArith Ascii String DecimalString Lia Sorted.
From stdpp Require Import gmap strings list fin_maps.

Open Scope Z_scope.
Set Warnings "-register-all".

(** ** Python string primitives *)

Module Py.

(** [str.isspace] on one ASCII character: tab, line feed, vertical tab,
    form feed, carriage return, the four separators 28..31, and space. *)
Definition isspace (c : ascii) : bool :=
  let n := N_of_ascii c in
  ((9 <=? n)%N && (n <=? 13)%N) || ((28 <=? n)%N && (n <=? 32)%N).

Definition islower (c : ascii) : bool :=
  let n := N_of_ascii c in (97 <=? n)%N && (n <=? 122)%N.

Definition upper_char (c : ascii) : ascii :=
  if islower c then ascii_of_N (N_of_ascii c - 32) else c.

(** [s.upper()] *)
Fixpoint upper (s : string) : string :=
  match s with
  | EmptyString => EmptyString
  | String c t => String (upper_char c) (upper t)
  end.

(** [s.lstrip()] *)
Fixpoint lstrip (s : string) : string :=
  match s with
  | EmptyString => EmptyString
  | String c t => if isspace c then lstrip t else s
  end.

(** [s.rstrip()] *)
Fixpoint rstrip (s : string) : string :=
  match s with
  | EmptyString => EmptyString
  | String c t =>
      match rstrip t with
      | EmptyString => if isspace c then EmptyString else String c EmptyString
      | r => String c r
      end
  end.

(** [s.strip()] *)
Definition strip (s : string) : string := rstrip (lstrip s).

(** [s.startswith(p)] *)
Definition startswith (s p : string) : bool := String.prefix p s.

(** [p in s] on strings: [p] occurs in [s] as a substring. *)
Fixpoint contains (p s : string) : bool :=
  String.prefix p s ||
  match s with
  | EmptyString => false
  | String _ t => contains p t
  end.

(** [s.find(p)]: the lowest index at which [p] occurs, [-1] if none. *)
Fixpoint find (s p : string) : Z :=
  if String.prefix p s then 0
  else match s with
       | EmptyString => -1
       | String _ t => let r := find t p in if r =? -1 then -1 else r + 1
       end.

(** [s[:n]] and [s[n:]] for an index [n >= 0]. *)
Fixpoint take (n : nat) (s : string) : string :=
  match n, s with
  | S k, String c t => String c (take k t)
  | _, _ => EmptyString
  end.

Fixpoint drop (n : nat) (s : string) : string :=
  match n, s with
  | S k, String _ t => drop k t
  | _, _ => s
  end.

(** [str(n)] of an [int], as an f-string renders it. *)
Definition str_of_int (n : Z) : string := NilZero.string_of_int (Z.to_int n).

(** The character class [[\s\n\t;()]] of the tokenizer. *)
Definition is_delim (c : ascii) : bool :=
  isspace c || Ascii.eqb c ";" || Ascii.eqb c "(" || Ascii.eqb c ")".

(** [re.split(r'[\s\n\t;()]', s)]: the pieces of [s] between delimiter
    characters, empty pieces included. *)
Fixpoint re_split (s : string) : list string :=
  match s with
  | EmptyString => [EmptyString]
  | String c t =>
      if is_delim c then EmptyString :: re_split t
      else match re_split t with
           | h :: r => String c h :: r
           | [] => [String c EmptyString]
           end
  end.

(** [s.isascii()]: every character has a code below 128. *)
Fixpoint isascii (s : string) : bool :=
  match s with
  | EmptyString => true
  | String c t => (N_of_ascii c <? 128)%N && isascii t
  end.

End Py.

(** ** Values, exceptions and the trace of driver calls *)

(** The Python values that reach the server: the JSON values of the types
    the tool schemas declare (string, integer) and [null], and the values
    a result row holds (the same, and datetime-like values, which are kept
    as what [isoformat()] returns). *)
Inductive PyVal :=
| VNone
| VInt (n : Z)
| VStr (s : string)
| VDateTime (isoformat : string).

#[global] Instance PyVal_eq_dec : EqDecision PyVal.
Proof. solve_decision. Defined.

(** [str(v)], as an f-string renders it. *)
Definition py_str (v : PyVal) : string :=
  match v with
  | VNone => "None"
  | VInt n => Py.str_of_int n
  | VStr s => s
  | VDateTime iso => iso
  end.

(** [bool(v)]: [None], [0] and [''] are false. *)
Definition truthy (v : PyVal) : bool :=
  match v with
  | VNone => false
  | VInt n => negb (n =? 0)
  | VStr s => negb (String.eqb s EmptyString)
  | VDateTime _ => true
  end.

Definition type_name (v : PyVal) : string :=
  match v with
  | VNone => "NoneType"
  | VInt _ => "int"
  | VStr _ => "str"
  | VDateTime _ => "datetime.datetime"
  end.

(** Exceptions: [pyodbc.Error], which the tools catch, and every other
    [Exception], which only [call_tool] catches.  The argument is
    [str(e)]. *)
Inductive exn :=
| pyodbc_Error (msg : string)
| Exception (msg : string).

Definition str_of_exn (e : exn) : string :=
  match e with pyodbc_Error m => m | Exception m => m end.

(** One call made to the database driver. *)
Inductive db_event :=
| Connect                                        (* create_connection() *)
| Cursor                                         (* conn.cursor() *)
| Execute (sql : string) (params : list PyVal)   (* cursor.execute(sql, params) *)
| Close.                                         (* cursor.close() *)

Inductive Outcome (A : Type) :=
| Return (a : A)
| Raise (e : exn).
Arguments Return {A} a.
Arguments Raise {A} e.

(** A computation: how it ends, and the driver calls it made. *)
Definition M (A : Type) : Type := Outcome A * list db_event.

Definition ret {A} (a : A) : M A := (Return a, []).
Definition raise {A} (e : exn) : M A := (Raise e, []).
Definition emit (ev : db_event) : M unit := (Return tt, [ev]).

Definition bind {A B} (m : M A) (f : A -> M B) : M B :=
  match m with
  | (Return a, t) => let '(o, t') := f a in (o, t ++ t')
  | (Raise e, t) => (Raise e, t)
  end.

Notation "'let!' x ':=' m 'in' k" := (bind m (fun x => k))
  (at level 10, x name, m at level 100, k at level 200).
Notation "'do!' m 'in' k" := (bind m (fun _ => k))
  (at level 10, m at level 100, k at level 200).

(** [try: m except pyodbc.Error as e: h e] *)
Definition except_pyodbc {A} (m : M A) (h : string -> A) : M A :=
  match m with
  | (Raise (pyodbc_Error msg), t) => (Return (h msg), t)
  | _ => m
  end.

(** [try: m except: a] and [try: m except Exception as e: h e] *)
Definition except_any {A} (m : M A) (h : exn -> A) : M A :=
  match m with
  | (Raise e, t) => (Return (h e), t)
  | _ => m
  end.

(** [try: m finally: cursor.close()], once the cursor exists. *)
Definition finally_close {A} (m : M A) : M A :=
  let '(o, t) := m in (o, t ++ [Close]).

(** ** The database collaborator

    [shared.connection_manager] and the driver are outside this module;
    they are taken as a parameter: whether a connection is obtained, and
    what executing a statement gives. *)

Record ResultSet := {
  description : list string;      (* the column names, in order *)
  fetchall : list (list PyVal)    (* the rows, each as long as [description] *)
}.

Record Database := {
  create_connection : option exn;                         (* [None]: a connection *)
  execute : string -> list PyVal -> exn + ResultSet
}.

(** ** The tools *)

Module Server.

Record col_info := {
  name : PyVal;
  type_ : PyVal;
  max_length : PyVal;
  nullable : bool;
  default_ : PyVal;
  is_primary_key : bool
}.

(** The dictionary a tool returns: [{"status": "error", "message": m}],
    or one of the two success payloads. *)
Inductive ToolResult :=
| ErrorResult (message : string)
| DescribeResult (schema table_name : PyVal) (columns : list col_info)
                 (row_count : PyVal)
| ReadResult (columns : list string) (row_count : nat)
             (rows : list (gmap string PyVal)) (message : string).

Definition _get_connection (db : Database) : M unit :=
  do! emit Connect in
  match create_connection db with
  | None => ret tt
  | Some e => raise e
  end.

Definition cursor_execute (db : Database) (sql : string) (params : list PyVal)
  : M ResultSet :=
  do! emit (Execute sql params) in
  match execute db sql params with
  | inr rs => ret rs
  | inl e => raise e
  end.

(** [row.NAME] on a driver row: the value in the column of that name. *)
Fixpoint row_attr (desc : list string) (row : list PyVal) (attr : string)
  : M PyVal :=
  match desc, row with
  | d :: desc', v :: row' =>
      if String.eqb d attr then ret v else row_attr desc' row' attr
  | _, _ =>
      raise (Exception ("'pyodbc.Row' object has no attribute '" +:+ attr +:+ "'"))
  end.

Definition describe_query : string := "
            SELECT 
                c.COLUMN_NAME,
                c.DATA_TYPE,
                c.CHARACTER_MAXIMUM_LENGTH,
                c.IS_NULLABLE,
                c.COLUMN_DEFAULT,
                CASE 
                    WHEN pk.COLUMN_NAME IS NOT NULL THEN 'YES'
                    ELSE 'NO'
                END AS IS_PRIMARY_KEY
            FROM INFORMATION_SCHEMA.COLUMNS c
            LEFT JOIN (
                SELECT ku.TABLE_SCHEMA, ku.TABLE_NAME, ku.COLUMN_NAME
                FROM INFORMATION_SCHEMA.TABLE_CONSTRAINTS tc
                JOIN INFORMATION_SCHEMA.KEY_COLUMN_USAGE ku
                    ON tc.CONSTRAINT_NAME = ku.CONSTRAINT_NAME
                WHERE tc.CONSTRAINT_TYPE = 'PRIMARY KEY'
            ) pk ON c.TABLE_SCHEMA = pk.TABLE_SCHEMA 
                AND c.TABLE_NAME = pk.TABLE_NAME 
                AND c.COLUMN_NAME = pk.COLUMN_NAME
            WHERE c.TABLE_SCHEMA = ? AND c.TABLE_NAME = ?
            ORDER BY c.ORDINAL_POSITION
            ".

Definition describe_row (desc : list string) (row : list PyVal) : M col_info :=
  let! n := row_attr desc row "COLUMN_NAME" in
  let! t := row_attr desc row "DATA_TYPE" in
  let! l := row_attr desc row "CHARACTER_MAXIMUM_LENGTH" in
  let! u := row_attr desc row "IS_NULLABLE" in
  let! d := row_attr desc row "COLUMN_DEFAULT" in
  let! k := row_attr desc row "IS_PRIMARY_KEY" in
  ret {| name := n; type_ := t; max_length := l;
         nullable := bool_decide (u = VStr "YES");
         default_ := d;
         is_primary_key := bool_decide (k = VStr "YES") |}.

Fixpoint describe_rows (desc : list string) (rows : list (list PyVal))
  : M (list col_info) :=
  match rows with
  | [] => ret []
  | row :: rest =>
      let! c := describe_row desc row in
      let! cs := describe_rows desc rest in
      ret (c :: cs)
  end.

(** [cursor.fetchone().row_count] after the counting statement. *)
Definition fetch_row_count (rs : ResultSet) : M PyVal :=
  match fetchall rs with
  | row :: _ => row_attr (description rs) row "row_count"
  | [] => raise (Exception "'NoneType' object has no attribute 'row_count'")
  end.

Definition describe_table (db : Database) (table_name schema : PyVal)
  : M ToolResult :=
  except_pyodbc
    (do! _get_connection db in
     do! emit Cursor in
     finally_close
       (let! rs := cursor_execute db describe_query [schema; table_name] in
        let! columns := describe_rows (description rs) (fetchall rs) in
        match columns with
        | [] =>
            ret (ErrorResult
                   ("Table " +:+ py_str schema +:+ "." +:+ py_str table_name +:+
                    " not found or you don't have permission to access it."))
        | _ =>
            let! row_count := except_any
                (let! rc := cursor_execute db
                         ("SELECT COUNT(*) as row_count FROM [" +:+ py_str schema
                          +:+ "].[" +:+ py_str table_name +:+ "]") [] in
                 fetch_row_count rc)
                (fun _ => VStr "Unknown (no permission or table doesn't exist)") in
            ret (DescribeResult schema table_name columns row_count)
        end))
    (fun e => ErrorResult ("Database error: " +:+ e)).

Definition dangerous_keywords : list string :=
  ["DROP"; "DELETE"; "INSERT"; "UPDATE"; "ALTER"; "CREATE"; "TRUNCATE"].

(** [set(re.split(r'[\s\n\t;()]', query_upper))] *)
Definition tokens (query_upper : string) : gset string :=
  list_to_set (Py.re_split query_upper).

(** [min(max(1, limit), 1000)]; comparing a non-integer with [1] raises. *)
Definition enforce_limit (limit : PyVal) : M Z :=
  match limit with
  | VInt n => ret (Z.min (Z.max 1 n) 1000)
  | v => raise (Exception ("'>' not supported between instances of '"
                           +:+ type_name v +:+ "' and 'int'"))
  end.

(** The statement that is executed: with [ TOP limit] put in after the
    first [SELECT] when neither [TOP] nor [LIMIT] occurs in the
    upper-cased text, unchanged otherwise. *)
Definition add_top (query query_upper : string) (limit : Z) : string :=
  if negb (Py.contains "TOP" query_upper) && negb (Py.contains "LIMIT" query_upper)
  then
    let query := Py.strip query in
    let select_pos := Py.find query_upper "SELECT" in
    if negb (select_pos =? -1) then
      Py.take (Z.to_nat (select_pos + 6)) query
      +:+ (" TOP " +:+ Py.str_of_int limit)
      +:+ Py.drop (Z.to_nat (select_pos + 6)) query
    else query
  else query.

(** One result row as a dictionary from column name to value; a value
    with [isoformat] is replaced by its text. *)
Definition isoformat_value (v : PyVal) : PyVal :=
  match v with VDateTime iso => VStr iso | _ => v end.

Definition row_dict (columns : list string) (row : list PyVal)
  : gmap string PyVal :=
  foldl (fun d cv => <[cv.1 := isoformat_value cv.2]> d) ∅ (zip columns row).

Definition read_rows (rs : ResultSet) : ToolResult :=
  let columns := description rs in
  let rows := map (row_dict columns) (fetchall rs) in
  ReadResult columns (length rows) rows
    ("Retrieved " +:+ Py.str_of_int (Z.of_nat (length rows)) +:+ " rows").

Definition only_select_message : string :=
  "Only SELECT queries are allowed for security reasons.".

Definition prohibited_message (keyword : string) : string :=
  "Query contains prohibited keyword: " +:+ keyword.

Definition query_failed_message (e : string) : string :=
  "Query execution failed: " +:+ e
  +:+ ". You may not have permission to access this data.".

(** The part of [read_data] that talks to the database. *)
Definition execute_query (db : Database) (query : string) : M ToolResult :=
  do! _get_connection db in
  do! emit Cursor in
  finally_close
    (let! rs := cursor_execute db query [] in
     ret (read_rows rs)).

Definition read_data (db : Database) (query limit : PyVal) : M ToolResult :=
  except_pyodbc
    (match query with
     | VStr q =>
         let query_upper := Py.upper (Py.strip q) in
         if negb (Py.startswith query_upper "SELECT") then
           ret (ErrorResult only_select_message)
         else
           match List.find (fun keyword => bool_decide (keyword ∈ tokens query_upper))
                           dangerous_keywords with
           | Some keyword => ret (ErrorResult (prohibited_message keyword))
           | None =>
               let! limit := enforce_limit limit in
               let query := add_top q query_upper limit in
               execute_query db query
           end
     | v => raise (Exception ("'" +:+ type_name v
                              +:+ "' object has no attribute 'strip'"))
     end)
    (fun e => ErrorResult (query_failed_message e)).

(** ** The dispatcher entry point *)

Record TextContent := { type : string; text : string }.

(** [arguments.get("limit", 100)] *)
Definition limit_argument (arguments : gmap string PyVal) : PyVal :=
  default (VInt 100) (arguments !! "limit").

Section Dispatch.

(** [json.dumps(result, indent=2)], from the standard library. *)
Variable json_dumps : ToolResult -> string.

Definition call_tool (db : Database) (name : string)
    (arguments : gmap string PyVal) : list TextContent * list db_event :=
  let '(o, t) :=
    if String.eqb name "describe_table" then
      let table_name := default VNone (arguments !! "table_name") in
      let schema := default (VStr "dbo") (arguments !! "schema") in
      if negb (truthy table_name) then
        ret (ErrorResult "table_name is required")
      else describe_table db table_name schema
    else if String.eqb name "read_data" then
      let query := default VNone (arguments !! "query") in
      let limit := limit_argument arguments in
      if negb (truthy query) then
        ret (ErrorResult "query is required")
      else read_data db query limit
    else ret (ErrorResult ("Unknown tool: " +:+ name)) in
  let result :=
    match o with
    | Return result => result
    | Raise e => ErrorResult ("Tool execution failed: " +:+ str_of_exn e)
    end in
  ([ {| type := "text"; text := json_dumps result |} ], t).

End Dispatch.

(** ** The tool catalogue *)

(** One entry of ["properties"] in an input schema. *)
Record PropertySchema := {
  prop_type : string;
  prop_description : string;
  prop_default : option PyVal;
  prop_minimum : option Z;
  prop_maximum : option Z
}.

Record InputSchema := {
  schema_type : string;
  properties : list (string * PropertySchema);
  required : list string
}.

Record Tool := {
  tool_name : string;
  tool_description : string;
  inputSchema : InputSchema
}.

(** [list_tools] *)
Definition list_tools : list Tool :=
  [ {| tool_name := "describe_table";
       tool_description := "Describes the structure of a database table";
       inputSchema :=
         {| schema_type := "object";
            properties :=
              [ ("table_name",
                 {| prop_type := "string";
                    prop_description := "Name of the table to describe";
                    prop_default := None;
                    prop_minimum := None; prop_maximum := None |});
                ("schema",
                 {| prop_type := "string";
                    prop_description := "Schema name (default: 'dbo')";
                    prop_default := Some (VStr "dbo");
                    prop_minimum := None; prop_maximum := None |}) ];
            required := ["table_name"] |} |};
    {| tool_name := "read_data";
       tool_description := "Executes a SELECT query to read data";
       inputSchema :=
         {| schema_type := "object";
            properties :=
              [ ("query",
                 {| prop_type := "string";
                    prop_description := "SELECT SQL query to execute";
                    prop_default := None;
                    prop_minimum := None; prop_maximum := None |});
                ("limit",
                 {| prop_type := "integer";
                    prop_description := "Maximum number of rows (1-1000, default: 100)";
                    prop_default := Some (VInt 100);
                    prop_minimum := Some 1; prop_maximum := Some 1000 |}) ];
            required := ["query"] |} |} ].

End Server.

(** ** The client session *)

Module Client.

(** JSON values, for the parameters of a request and for responses. *)
Inductive Json :=
| JNull
| JInt (n : Z)
| JStr (s : string)
| JList (items : list Json)
| JObject (fields : list (string * Json)).

Record Request := {
  jsonrpc : string;
  id : Z;
  method : string;
  params : Json
}.

(** A decoded response line: whether the key ["error"] is in it. *)
Inductive Response :=
| ErrorResponse (error : Json)
| ResultResponse (result : Json).

(** The fields of [MCPClient] that sending a request reads or writes.
    [writer] is [None] until [start] attaches the standard input of the
    subprocess it spawned; nothing sets it back to [None]. *)
Record MCPClient := {
  writer : option unit;
  request_id : Z
}.

(** [MCPClient.__init__] *)
Definition __init__ : MCPClient := {| writer := None; request_id := 0 |}.

(** A step of the session: how it ends, the session after it, and the
    requests it wrote to the subprocess, one frame
    [json.dumps(request) + "\n"] each. *)
Definition C (A : Type) : Type := MCPClient -> Outcome A * MCPClient * list Request.

Definition cret {A} (a : A) : C A := fun self => (Return a, self, []).
Definition craise {A} (e : exn) : C A := fun self => (Raise e, self, []).

Definition cbind {A B} (m : C A) (f : A -> C B) : C B :=
  fun self =>
    match m self with
    | (Return a, self', w) =>
        let '(o, self'', w') := f a self' in (o, self'', w ++ w')
    | (Raise e, self', w) => (Raise e, self', w)
    end.

Notation "'await' x ':=' m 'in' k" := (cbind m (fun x => k))
  (at level 10, x name, m at level 100, k at level 200).
Notation "'await_' m 'in' k" := (cbind m (fun _ => k))
  (at level 10, m at level 100, k at level 200).

(** [MCPClient._send_request]: the counter is incremented before anything
    else, and the request carries its new value. *)
Definition _send_request (method : string) (params : Json) : C Z :=
  fun self =>
    let self := {| writer := writer self; request_id := request_id self + 1 |} in
    let request := {| jsonrpc := "2.0"; id := request_id self;
                      method := method; params := params |} in
    match writer self with
    | Some _ => (Return (request_id self), self, [request])
    | None =>
        (Raise (Exception "'NoneType' object has no attribute 'write'"), self, [])
    end.

(** [MCPClient._read_response], on the line the subprocess answers with
    ([None]: it closed its output). *)
Definition _read_response (line : option Response) : C Response :=
  match line with
  | Some r => cret r
  | None => craise (Exception "MCP server closed connection")
  end.

Definition initialize_params : Json :=
  JObject [("protocolVersion", JStr "2024-11-05");
           ("capabilities", JObject [("tools", JObject [])]);
           ("clientInfo", JObject [("name", JStr "banking-agent");
                                   ("version", JStr "1.0.0")])].

(** [MCPClient.start]; [spawn] is [Some e] when creating the subprocess
    raises [e]. *)
Definition start (spawn : option exn) (line : option Response) : C unit :=
  match spawn with
  | Some e => craise e
  | None =>
      await_ (fun self => (Return tt,
                        {| writer := Some tt; request_id := request_id self |},
                        [])) in
      await_ _send_request "initialize" initialize_params in
      await response := _read_response line in
      match response with
      | ErrorResponse _ => craise (Exception "MCP initialization failed")
      | ResultResponse _ => cret tt
      end
  end.

(** [MCPClient.stop] leaves the counter and the [writer] field as they
    are. *)
Definition stop : C unit := cret tt.

Definition json_get (key : string) (v : Json) (dflt : Json) : Json :=
  match v with
  | JObject fields =>
      match List.find (fun kv => String.eqb (fst kv) key) fields with
      | Some kv => snd kv
      | None => dflt
      end
  | _ => dflt
  end.

(** [MCPClient.list_tools] *)
Definition list_tools (line : option Response) : C Json :=
  await_ _send_request "tools/list" (JObject []) in
  await response := _read_response line in
  match response with
  | ErrorResponse _ => craise (Exception "Error listing tools")
  | ResultResponse result => cret (json_get "tools" result (JList []))
  end.

(** [MCPClient.call_tool], up to the decoding of the text content. *)
Definition call_tool (tool_name : string) (arguments : Json)
    (line : option Response) : C Json :=
  await_ _send_request "tools/call"
        (JObject [("name", JStr tool_name); ("arguments", arguments)]) in
  await response := _read_response line in
  match response with
  | ErrorResponse _ => craise (Exception ("Error calling tool " +:+ tool_name))
  | ResultResponse result => cret result
  end.

(** What a caller may do with a session, with what the environment
    answers. *)
Inductive operation :=
| Start (spawn : option exn) (line : option Response)
| Stop
| ListTools (line : option Response)
| CallTool (tool_name : string) (arguments : Json) (line : option Response)
| SendRequest (method : string) (params : Json).

Definition run_operation (op : operation) (self : MCPClient)
  : MCPClient * list Request :=
  match op with
  | Start spawn line => let '(_, s, w) := start spawn line self in (s, w)
  | Stop => let '(_, s, w) := stop self in (s, w)
  | ListTools line => let '(_, s, w) := list_tools line self in (s, w)
  | CallTool n a line => let '(_, s, w) := call_tool n a line self in (s, w)
  | SendRequest m p => let '(_, s, w) := _send_request m p self in (s, w)
  end.

(** The session after a sequence of operations, whatever each one
    returned or raised, and every request written on the way. *)
Fixpoint run (ops : list operation) (self : MCPClient)
  : MCPClient * list Request :=
  match ops with
  | [] => (self, [])
  | op :: rest =>
      let '(s, w) := run_operation op self in
      let '(s', w') := run rest s in
      (s', w ++ w')
  end.

Definition sent_ids (ops : list operation) (self : MCPClient) : list Z :=
  map id (snd (run ops self)).

(** *** Decoding the answer of a tool, and the one-shot helpers *)

Definition json_type_name (v : Json) : string :=
  match v with
  | JNull => "NoneType"
  | JInt _ => "int"
  | JStr _ => "str"
  | JList _ => "list"
  | JObject _ => "dict"
  end.

(** [d.get(key)] on a dictionary: the value of the first field of that
    name, if any. *)
Definition json_lookup (key : string) (fields : list (string * Json))
  : option Json :=
  match List.find (fun kv => String.eqb (fst kv) key) fields with
  | Some kv => Some (snd kv)
  | None => None
  end.

Section Decode.

(** [json.loads], from the standard library; it raises on a text that is
    not JSON. *)
Variable json_loads : string -> Outcome Json.

(** [content.get("type") == "text"] and what follows, for the first item
    [content] of the content list. *)
Definition decode_item (result content : Json) : C Json :=
  match content with
  | JObject item =>
      match json_lookup "type" item with
      | Some (JStr t) =>
          if String.eqb t "text" then
            match default (JStr "{}") (json_lookup "text" item) with
            | JStr s => fun self => (json_loads s, self, [])
            | v => craise (Exception
                             ("the JSON object must be str, bytes or bytearray, not "
                              +:+ json_type_name v))
            end
          else cret result
      | _ => cret result
      end
  | v => craise (Exception ("'" +:+ json_type_name v
                            +:+ "' object has no attribute 'get'"))
  end.

(** The end of [MCPClient.call_tool]: the text of the first content item
    is parsed when there is one, and the result is returned as it is
    otherwise. *)
Definition decode_result (result : Json) : C Json :=
  match result with
  | JObject fields =>
      match json_lookup "content" fields with
      | None => cret result
      | Some (JList []) => cret result
      | Some (JList (content :: _)) => decode_item result content
      | Some (JStr s) =>
          match s with
          | EmptyString => cret result
          | String _ _ => craise (Exception "'str' object has no attribute 'get'")
          end
      | Some (JObject []) => cret result
      | Some (JObject (_ :: _)) => craise (Exception "0")
      | Some v => craise (Exception ("object of type '" +:+ json_type_name v
                                     +:+ "' has no len()"))
      end
  | JList items =>
      if existsb (fun v => match v with
                           | JStr s => String.eqb s "content"
                           | _ => false
                           end) items
      then craise (Exception "list indices must be integers or slices, not str")
      else cret result
  | JStr s =>
      if Py.contains "content" s
      then craise (Exception "string indices must be integers, not 'str'")
      else cret result
  | v => craise (Exception ("argument of type '" +:+ json_type_name v
                            +:+ "' is not iterable"))
  end.

(** [MCPClient.call_tool], whole. *)
Definition call_tool_decoded (tool_name : string) (arguments : Json)
    (line : option Response) : C Json :=
  await result := call_tool tool_name arguments line in
  decode_result result.

(** [async with mcp_client() as client: body]: a new session is started,
    [body] runs if the start succeeds, and the session is stopped on every
    path. *)
Definition mcp_client {A} (spawn : option exn) (line : option Response)
    (body : C A) : Outcome A * MCPClient * list Request :=
  match start spawn line __init__ with
  | (Return _, client, w) =>
      let '(o, client', w') := body client in
      let '(_, client'', w'') := stop client' in
      (o, client'', w ++ w' ++ w'')
  | (Raise e, client, w) =>
      let '(_, client', w') := stop client in
      (Raise e, client', w ++ w')
  end.

(** [describe_table_sync] *)
Definition describe_table_sync (table_name schema : string)
    (spawn : option exn) (handshake answer : option Response)
  : Outcome Json * MCPClient * list Request :=
  mcp_client spawn handshake
    (call_tool_decoded "describe_table"
       (JObject [("table_name", JStr table_name); ("schema", JStr schema)])
       answer).

(** [read_data_sync] *)
Definition read_data_sync (query : string) (limit : Z)
    (spawn : option exn) (handshake answer : option Response)
  : Outcome Json * MCPClient * list Request :=
  mcp_client spawn handshake
    (call_tool_decoded "read_data"
       (JObject [("query", JStr query); ("limit", JInt limit)])
       answer).

End Decode.

End Client.

(** ** Sample collaborators *)

(** A database that answers every statement with one row of one column. *)
Definition db_ok : Database :=
  {| create_connection := None;
     execute := fun _ _ => inr {| description := ["n"]; fetchall := [[VInt 1]] |} |}.

(** A database on which every statement fails in the driver. *)
Definition db_failing : Database :=
  {| create_connection := None;
     execute := fun _ _ => inl (pyodbc_Error "Login failed for user 'reader'") |}.

(** A database that refuses the connection. *)
Definition db_unreachable : Database :=
  {| create_connection := Some (pyodbc_Error "08001 server not found");
     execute := fun _ _ => inl (pyodbc_Error "not connected") |}.

(** A serializer that keeps the message of an error result. *)
Definition dumps_message (r : Server.ToolResult) : string :=
  match r with
  | Server.ErrorResult m => m
  | _ => "success"
  end.

(** ** Notions of the specification *)

(** [clamp(x, lo, hi)]: values below [lo] become [lo], values above [hi]
    become [hi]. *)
Definition clamp (x lo hi : Z) : Z :=
  if x <? lo then lo else if hi <? x then hi else x.

(** The first keyword of a statement, compared without regard to case:
    the first token of the trimmed, upper-cased text. *)
Definition first_keyword (statement : string) : string :=
  hd EmptyString (Py.re_split (Py.upper (Py.strip statement))).

(** The denylisted keywords, in the order in which they are looked for. *)
Definition denylist : list string :=
  ["DROP"; "DELETE"; "INSERT"; "UPDATE"; "ALTER"; "CREATE"; "TRUNCATE"].

(** The characters at which a statement is split into tokens: the ASCII
    white space (tab, line feed, vertical tab, form feed, carriage return,
    the separators 28 to 31, space) and [;], [(] and [)]. *)
Definition delimiters : list ascii :=
  [ "009"; "010"; "011"; "012"; "013"; "028"; "029"; "030"; "031"; " ";
    ";"; "("; ")" ]%char.

Definition is_delimiter (c : ascii) : bool :=
  existsb (Ascii.eqb c) delimiters.

(** A word is a whole token of a text when it holds no delimiter and
    stands in the text between two boundaries, a boundary being an end of
    the text or a delimiter character. *)
Fixpoint no_delim (k : string) : bool :=
  match k with
  | EmptyString => true
  | String c t => negb (is_delimiter c) && no_delim t
  end.

Fixpoint ends_at_boundary (l : string) : bool :=
  match l with
  | EmptyString => true
  | String c EmptyString => is_delimiter c
  | String _ t => ends_at_boundary t
  end.

Definition starts_at_boundary (r : string) : bool :=
  match r with
  | EmptyString => true
  | String c _ => is_delimiter c
  end.

Definition whole_token (k s : string) : Prop :=
  exists l r, s = l +:+ k +:+ r
              /\ no_delim k = true
              /\ ends_at_boundary l = true
              /\ starts_at_boundary r = true.

(** How many times a word occurs in a text. *)
Fixpoint occurrences (p s : string) : nat :=
  ((if String.prefix p s then 1 else 0) +
   match s with
   | EmptyString => 0
   | String _ t => occurrences p t
   end)%nat.

Definition is_digit (c : ascii) : bool :=
  let n := N_of_ascii c in (48 <=? n)%N && (n <=? 57)%N.

Fixpoint all_digits (s : string) : bool :=
  match s with
  | EmptyString => true
  | String c t => is_digit c && all_digits t
  end.

(** The data access behind a statement fails in the driver with the
    text [e]: the connection is refused, or the statement is. *)
Definition access_fails (db : Database) (sql : string) (params : list PyVal)
    (e : string) : Prop :=
  create_connection db = Some (pyodbc_Error e)
  \/ (create_connection db = None
      /\ execute db sql params = inl (pyodbc_Error e)).

(** The text of the counting statement of [describe_table], into which
    the two names are put as they are. *)
Definition count_statement (schema table_name : PyVal) : string :=
  "SELECT COUNT(*) as row_count FROM [" +:+ py_str schema
  +:+ "].[" +:+ py_str table_name +:+ "]".

(** The column names of the result of [describe_query], in the order of
    its select list, and the descriptor a row of six values stands for. *)
Definition describe_columns : list string :=
  ["COLUMN_NAME"; "DATA_TYPE"; "CHARACTER_MAXIMUM_LENGTH"; "IS_NULLABLE";
   "COLUMN_DEFAULT"; "IS_PRIMARY_KEY"].

Definition column_of_row (row : list PyVal) : Server.col_info :=
  {| Server.name := nth 0 row VNone;
     Server.type_ := nth 1 row VNone;
     Server.max_length := nth 2 row VNone;
     Server.nullable := bool_decide (nth 3 row VNone = VStr "YES");
     Server.default_ := nth 4 row VNone;
     Server.is_primary_key := bool_decide (nth 5 row VNone = VStr "YES") |}.

(** A database that knows one table of two columns and 42 rows, and one
    that knows the same table but refuses to count its rows. *)
Definition catalogue_rows : list (list PyVal) :=
  [ [VStr "id"; VStr "int"; VNone; VStr "NO"; VNone; VStr "YES"];
    [VStr "name"; VStr "nvarchar"; VInt 50; VStr "YES"; VNone; VStr "NO"] ].

Definition db_catalogue : Database :=
  {| create_connection := None;
     execute := fun sql _ =>
       if String.eqb sql Server.describe_query
       then inr {| description := describe_columns; fetchall := catalogue_rows |}
       else inr {| description := ["row_count"]; fetchall := [[VInt 42]] |} |}.

Definition db_catalogue_no_count : Database :=
  {| create_connection := None;
     execute := fun sql _ =>
       if String.eqb sql Server.describe_query
       then inr {| description := describe_columns; fetchall := catalogue_rows |}
       else inl (pyodbc_Error "SELECT permission denied") |}.

(** A database whose connection manager fails outside the driver. *)
Definition db_misconfigured : Database :=
  {| create_connection := Some (Exception "connection string is not set");
     execute := fun _ _ => inl (pyodbc_Error "not connected") |}.

(** The two requests of a one-shot call. *)
Definition initialize_request : Client.Request :=
  {| Client.jsonrpc := "2.0"; Client.id := 1; Client.method := "initialize";
     Client.params := Client.initialize_params |}.

Definition tool_request (tool_name : string) (arguments : Client.Json)
  : Client.Request :=
  {| Client.jsonrpc := "2.0"; Client.id := 2; Client.method := "tools/call";
     Client.params :=
       Client.JObject [("name", Client.JStr tool_name); ("arguments", arguments)] |}.

(** * Properties *)

(** ** The primitives on examples *)

Example strip_ex : Py.strip (String "009" " select 1  ") = "select 1".
Proof. reflexivity. Qed.

Example upper_ex : Py.upper "Select created_at, [x] From t1" = "SELECT CREATED_AT, [X] FROM T1".
Proof. reflexivity. Qed.

Example re_split_ex :
  Py.re_split "SELECT A;DROP (T) " = ["SELECT"; "A"; "DROP"; EmptyString; "T"; EmptyString; EmptyString].
Proof. reflexivity. Qed.

Example find_ex : Py.find "XXSELECT" "SELECT" = 2 /\ Py.find "XX" "SELECT" = -1.
Proof. split; reflexivity. Qed.

Example str_of_int_ex :
  Py.str_of_int 100 = "100" /\ Py.str_of_int 0 = "0" /\ Py.str_of_int (-3) = "-3".
Proof. repeat split; reflexivity. Qed.

Example read_data_ex :
  Server.call_tool dumps_message db_ok "read_data"
    {[ "query" := VStr "SELECT * FROM Accounts" ]}
  = ([ {| Server.type := "text"; Server.text := "success" |} ],
     [Connect; Cursor; Execute "SELECT TOP 100 * FROM Accounts" []; Close]).
Proof. reflexivity. Qed.

Example unreachable_ex :
  Server.read_data db_unreachable (VStr "SELECT 1") (VInt 1)
  = (Return (Server.ErrorResult
               "Query execution failed: 08001 server not found. You may not have permission to access this data."),
     [Connect]).
Proof. reflexivity. Qed.

Example client_ids_ex :
  Client.sent_ids
    [Client.ListTools None;
     Client.Start None (Some (Client.ResultResponse Client.JNull));
     Client.CallTool "read_data" Client.JNull None;
     Client.Stop;
     Client.ListTools None]
    Client.__init__ = [2; 3; 4].
Proof. reflexivity. Qed.


(** ** The gate, step by step *)

Section Gate.

Import Server.

Variable db : Database.

Lemma read_data_not_select (q : string) (limit : PyVal) :
  Py.startswith (Py.upper (Py.strip q)) "SELECT" = false ->
  read_data db (VStr q) limit = (Return (ErrorResult only_select_message), []).
Proof.
  intros H. unfold read_data. rewrite H. reflexivity.
Qed.

Lemma read_data_prohibited (q keyword : string) (limit : PyVal) :
  Py.startswith (Py.upper (Py.strip q)) "SELECT" = true ->
  List.find (fun k => bool_decide (k ∈ tokens (Py.upper (Py.strip q))))
            dangerous_keywords = Some keyword ->
  read_data db (VStr q) limit
  = (Return (ErrorResult (prohibited_message keyword)), []).
Proof.
  intros H F. unfold read_data. rewrite H, F. reflexivity.
Qed.

Lemma execute_query_trace (query : string) :
  snd (execute_query db query)
  = Connect :: match create_connection db with
               | None => [Cursor; Execute query []; Close]
               | Some _ => []
               end.
Proof.
  unfold execute_query, _get_connection, cursor_execute.
  destruct (create_connection db) as [[e|e]|]; simpl; try reflexivity.
  destruct (execute db query []) as [[e|e]|rs]; reflexivity.
Qed.

Lemma execute_query_outcome (query : string) :
  fst (execute_query db query)
  = match create_connection db with
    | Some e => Raise e
    | None =>
        match execute db query [] with
        | inl e => Raise e
        | inr rs => Return (read_rows rs)
        end
    end.
Proof.
  unfold execute_query, _get_connection, cursor_execute.
  destruct (create_connection db) as [[e|e]|]; simpl; try reflexivity.
  destruct (execute db query []) as [[e|e]|rs]; reflexivity.
Qed.

Lemma read_data_accepted (q : string) (l : Z) :
  Py.startswith (Py.upper (Py.strip q)) "SELECT" = true ->
  List.find (fun k => bool_decide (k ∈ tokens (Py.upper (Py.strip q))))
            dangerous_keywords = None ->
  read_data db (VStr q) (VInt l)
  = except_pyodbc
      (execute_query db (add_top q (Py.upper (Py.strip q)) (Z.min (Z.max 1 l) 1000)))
      (fun e => ErrorResult (query_failed_message e)).
Proof.
  intros H F. unfold read_data. rewrite H, F. simpl.
  destruct (execute_query db _) as [o t]. reflexivity.
Qed.

End Gate.

(** ** Row limits *)

Lemma min_max_clamp (l : Z) : Z.min (Z.max 1 l) 1000 = clamp l 1 1000.
Proof.
  unfold clamp.
  destruct (Z.ltb_spec l 1), (Z.ltb_spec 1000 l); lia.
Qed.

Lemma clamp_bounds (l : Z) : 1 <= clamp l 1 1000 <= 1000.
Proof. rewrite <- min_max_clamp. lia. Qed.

Lemma read_data_limit (db : Database) (q : string) (l : Z) :
  Py.startswith (Py.upper (Py.strip q)) "SELECT" = true ->
  List.find (fun k => bool_decide (k ∈ Server.tokens (Py.upper (Py.strip q))))
            Server.dangerous_keywords = None ->
  Server.read_data db (VStr q) (VInt l)
  = except_pyodbc
      (Server.execute_query db
         (Server.add_top q (Py.upper (Py.strip q)) (clamp l 1 1000)))
      (fun e => Server.ErrorResult (Server.query_failed_message e)).
Proof.
  intros H F. rewrite <- min_max_clamp. now apply read_data_accepted.
Qed.

Lemma limit_argument_spec (arguments : gmap string PyVal) (L : option Z) :
  arguments !! "limit" = VInt <$> L ->
  Server.limit_argument arguments = VInt (default 100 L).
Proof.
  intros HL. unfold Server.limit_argument. rewrite HL. now destruct L.
Qed.

Lemma enforce_limit_clamp (l : Z) :
  Server.enforce_limit (VInt l) = ret (clamp l 1 1000).
Proof. unfold Server.enforce_limit. now rewrite min_max_clamp. Qed.

(** C7.  Whatever limit is requested, the limit [read_data] works with is
    the requested one, or 100 when the argument is missing, brought into
    the range 1..1000: it is the number put into the statement that is
    executed.  In particular 0 gives 1, 5000 gives 1000 and -3 gives 1. *)
Theorem effective_limit_is_clamp
    (db : Database) (q : string) (arguments : gmap string PyVal) (L : option Z) :
  arguments !! "limit" = VInt <$> L ->
  Py.startswith (Py.upper (Py.strip q)) "SELECT" = true ->
  List.find (fun k => bool_decide (k ∈ Server.tokens (Py.upper (Py.strip q))))
            Server.dangerous_keywords = None ->
  Server.read_data db (VStr q) (Server.limit_argument arguments)
  = except_pyodbc
      (Server.execute_query db
         (Server.add_top q (Py.upper (Py.strip q)) (clamp (default 100 L) 1 1000)))
      (fun e => Server.ErrorResult (Server.query_failed_message e))
  /\ Server.enforce_limit (Server.limit_argument arguments)
     = ret (clamp (default 100 L) 1 1000)
  /\ 1 <= clamp (default 100 L) 1 1000 <= 1000
  /\ clamp 0 1 1000 = 1 /\ clamp 5000 1 1000 = 1000 /\ clamp (-3) 1 1000 = 1.
Proof.
  intros HL H F. rewrite (limit_argument_spec arguments L HL).
  split; [now apply read_data_limit|].
  split; [apply enforce_limit_clamp|].
  split; [apply clamp_bounds | repeat split].
Qed.

Lemma effective_limit_is_clamp_witness :
  Server.read_data db_ok (VStr "SELECT * FROM Accounts")
    (Server.limit_argument {[ "limit" := VInt 5000 ]})
  = except_pyodbc
      (Server.execute_query db_ok "SELECT TOP 1000 * FROM Accounts")
      (fun e => Server.ErrorResult (Server.query_failed_message e)).
Proof.
  exact (proj1 (effective_limit_is_clamp db_ok "SELECT * FROM Accounts"
                  {[ "limit" := VInt 5000 ]} (Some 5000)
                  eq_refl eq_refl eq_refl)).
Defined.

(** C6 (as the program has it).  A missing limit is replaced by 100; a
    limit that is present and not positive is not replaced: it is clamped,
    which gives 1. *)
Theorem missing_limit_100_nonpositive_limit_1
    (db : Database) (q : string) (arguments : gmap string PyVal) (L : option Z) :
  arguments !! "limit" = VInt <$> L ->
  match L with Some l => l <= 0 | None => True end ->
  Py.startswith (Py.upper (Py.strip q)) "SELECT" = true ->
  List.find (fun k => bool_decide (k ∈ Server.tokens (Py.upper (Py.strip q))))
            Server.dangerous_keywords = None ->
  let effective := match L with Some _ => 1 | None => 100 end in
  Server.enforce_limit (Server.limit_argument arguments) = ret effective
  /\ Server.read_data db (VStr q) (Server.limit_argument arguments)
     = except_pyodbc
         (Server.execute_query db
            (Server.add_top q (Py.upper (Py.strip q)) effective))
         (fun e => Server.ErrorResult (Server.query_failed_message e)).
Proof.
  intros HL Hnp H F effective.
  assert (E : clamp (default 100 L) 1 1000 = effective).
  { subst effective. destruct L as [l|]; simpl; [|reflexivity].
    unfold clamp. destruct (Z.ltb_spec l 1); [reflexivity | lia]. }
  rewrite (limit_argument_spec arguments L HL), <- E.
  split; [apply enforce_limit_clamp | now apply read_data_limit].
Qed.

Lemma missing_limit_100_nonpositive_limit_1_witness :
  (Server.enforce_limit (Server.limit_argument {[ "limit" := VInt (-3) ]}) = ret 1
   /\ Server.read_data db_ok (VStr "SELECT * FROM Accounts")
        (Server.limit_argument {[ "limit" := VInt (-3) ]})
      = except_pyodbc
          (Server.execute_query db_ok "SELECT TOP 1 * FROM Accounts")
          (fun e => Server.ErrorResult (Server.query_failed_message e)))
  /\ (Server.enforce_limit (Server.limit_argument ∅) = ret 100
      /\ Server.read_data db_ok (VStr "SELECT * FROM Accounts")
           (Server.limit_argument ∅)
         = except_pyodbc
             (Server.execute_query db_ok "SELECT TOP 100 * FROM Accounts")
             (fun e => Server.ErrorResult (Server.query_failed_message e))).
Proof.
  split.
  - apply (missing_limit_100_nonpositive_limit_1 db_ok "SELECT * FROM Accounts"
             {[ "limit" := VInt (-3) ]} (Some (-3)));
      [reflexivity | simpl; lia | reflexivity | reflexivity].
  - apply (missing_limit_100_nonpositive_limit_1 db_ok "SELECT * FROM Accounts"
             ∅ None); [reflexivity | exact I | reflexivity | reflexivity].
Defined.

(** C6, as stated, fails: for the requested limit 0 the limit that is used
    is 1, not 100, and the statement sent to the database says [TOP 1]. *)
Lemma nonpositive_limit_is_not_100 :
  ~ (Server.enforce_limit (Server.limit_argument {[ "limit" := VInt 0 ]})
     = ret 100)
  /\ snd (Server.call_tool dumps_message db_ok "read_data"
            {[ "query" := VStr "SELECT * FROM Accounts"; "limit" := VInt 0 ]})
     = [Connect; Cursor; Execute "SELECT TOP 1 * FROM Accounts" []; Close].
Proof.
  split; [intros H; vm_compute in H; discriminate H | vm_compute; reflexivity].
Qed.

(** ** Rejections *)

Lemma prohibited_not_only_select (k : string) :
  Server.prohibited_message k <> Server.only_select_message.
Proof. discriminate. Qed.

Lemma query_failed_not_only_select (e : string) :
  Server.query_failed_message e <> Server.only_select_message.
Proof. discriminate. Qed.

Lemma query_failed_not_prohibited (e k : string) :
  Server.query_failed_message e <> Server.prohibited_message k.
Proof. discriminate. Qed.

(** C4 (as the program has it).  [read_data("DELETE FROM Accounts")] is
    turned down by the first check, with the message that only SELECT
    queries are allowed, whatever the limit and the database; no call to
    the database is made. *)
Theorem delete_statement_is_not_a_read (db : Database) (limit : PyVal) :
  Server.read_data db (VStr "DELETE FROM Accounts") limit
  = (Return (Server.ErrorResult
               "Only SELECT queries are allowed for security reasons."), []).
Proof. apply read_data_not_select. reflexivity. Qed.

(** C4, as stated, fails: the message is not the prohibited-keyword one,
    for any keyword. *)
Lemma delete_statement_message_is_not_prohibited_keyword :
  ~ (exists keyword,
       fst (Server.read_data db_ok (VStr "DELETE FROM Accounts") (VInt 100))
       = Return (Server.ErrorResult (Server.prohibited_message keyword))).
Proof.
  intros [keyword H].
  rewrite (read_data_not_select db_ok "DELETE FROM Accounts" (VInt 100) eq_refl) in H.
  simpl in H. discriminate H.
Qed.

(** ** Dispatch *)

Section CallTool.

Variable json_dumps : Server.ToolResult -> string.
Variable db : Database.

(** C8.  A tool name other than [describe_table] and [read_data] is
    answered with the text of an error result whose message names that
    tool; the handler returns normally and the database is not touched. *)
Theorem unknown_tool_is_an_error_result
    (name : string) (arguments : gmap string PyVal) :
  name <> "describe_table" ->
  name <> "read_data" ->
  Server.call_tool json_dumps db name arguments
  = ([ {| Server.type := "text";
          Server.text := json_dumps (Server.ErrorResult ("Unknown tool: " +:+ name)) |} ],
     []).
Proof.
  intros Hd Hr. unfold Server.call_tool.
  apply String.eqb_neq in Hd, Hr. rewrite Hd, Hr. reflexivity.
Qed.

(** C10.  An empty string for [table_name] (for [describe_table]) or for
    [query] (for [read_data]) gives the same answer as leaving the argument
    out: the "is required" error result, without calling the tool. *)
Theorem empty_argument_is_missing_argument (arguments : gmap string PyVal) :
  (arguments !! "table_name" = Some (VStr EmptyString) ->
   Server.call_tool json_dumps db "describe_table" arguments
   = Server.call_tool json_dumps db "describe_table" (delete "table_name" arguments)
   /\ Server.call_tool json_dumps db "describe_table" arguments
      = ([ {| Server.type := "text";
              Server.text := json_dumps (Server.ErrorResult "table_name is required") |} ],
         []))
  /\ (arguments !! "query" = Some (VStr EmptyString) ->
      Server.call_tool json_dumps db "read_data" arguments
      = Server.call_tool json_dumps db "read_data" (delete "query" arguments)
      /\ Server.call_tool json_dumps db "read_data" arguments
         = ([ {| Server.type := "text";
                 Server.text := json_dumps (Server.ErrorResult "query is required") |} ],
            [])).
Proof.
  split; intros H; unfold Server.call_tool; simpl;
    rewrite H, lookup_delete_eq; simpl; split; reflexivity.
Qed.

End CallTool.

Lemma unknown_tool_is_an_error_result_witness :
  Server.call_tool dumps_message db_ok "drop_table" {[ "table_name" := VStr "Accounts" ]}
  = ([ {| Server.type := "text"; Server.text := "Unknown tool: drop_table" |} ], []).
Proof.
  apply (unknown_tool_is_an_error_result dumps_message db_ok "drop_table");
    discriminate.
Defined.

Lemma empty_argument_is_missing_argument_witness :
  Server.call_tool dumps_message db_ok "describe_table" {[ "table_name" := VStr EmptyString ]}
  = ([ {| Server.type := "text"; Server.text := "table_name is required" |} ], [])
  /\ Server.call_tool dumps_message db_ok "read_data"
       {[ "query" := VStr EmptyString; "limit" := VInt 5 ]}
     = ([ {| Server.type := "text"; Server.text := "query is required" |} ], []).
Proof.
  split.
  - apply (proj1 (empty_argument_is_missing_argument dumps_message db_ok
                    {[ "table_name" := VStr EmptyString ]})).
    reflexivity.
  - apply (proj2 (empty_argument_is_missing_argument dumps_message db_ok
                    {[ "query" := VStr EmptyString; "limit" := VInt 5 ]})).
    reflexivity.
Defined.

(** ** Failures of the data access *)

Lemma prefix_append (p s : string) : String.prefix p (p +:+ s) = true.
Proof.
  induction p as [|c p IH]; simpl.
  - now destruct s.
  - destruct (ascii_dec c c) as [_|n]; [exact IH | now destruct n].
Qed.

Lemma contains_prefix (p s : string) :
  String.prefix p s = true -> Py.contains p s = true.
Proof. intros H. destruct s; unfold Py.contains; rewrite H; reflexivity. Qed.

Lemma contains_append_l (a p s : string) :
  Py.contains p s = true -> Py.contains p (a +:+ s) = true.
Proof.
  intros H. induction a as [|c a IH]; [exact H|].
  change (String c a +:+ s) with (String c (a +:+ s)).
  change (Py.contains p (String c (a +:+ s)))
    with (String.prefix p (String c (a +:+ s)) || Py.contains p (a +:+ s)).
  rewrite IH. apply orb_true_r.
Qed.

Lemma contains_end (a p : string) : Py.contains p (a +:+ p) = true.
Proof.
  apply contains_append_l, contains_prefix.
  induction p as [|c p IH]; simpl; [reflexivity|].
  destruct (ascii_dec c c) as [_|n]; [exact IH | now destruct n].
Qed.

Lemma contains_middle (a p b : string) : Py.contains p (a +:+ p +:+ b) = true.
Proof. apply contains_append_l, contains_prefix, prefix_append. Qed.

Lemma read_data_failure (db : Database) (q e : string) (l : Z) :
  Py.startswith (Py.upper (Py.strip q)) "SELECT" = true ->
  List.find (fun k => bool_decide (k ∈ Server.tokens (Py.upper (Py.strip q))))
            Server.dangerous_keywords = None ->
  access_fails db (Server.add_top q (Py.upper (Py.strip q)) (clamp l 1 1000)) [] e ->
  fst (Server.read_data db (VStr q) (VInt l))
  = Return (Server.ErrorResult (Server.query_failed_message e)).
Proof.
  intros H F A. rewrite read_data_limit by assumption.
  pose proof (execute_query_outcome db
                (Server.add_top q (Py.upper (Py.strip q)) (clamp l 1 1000))) as O.
  destruct (Server.execute_query db _) as [o t]. simpl in O. subst o.
  destruct A as [C | [C X]]; rewrite C; [|rewrite X]; reflexivity.
Qed.

Lemma describe_table_failure (db : Database) (table_name schema : PyVal) (e : string) :
  access_fails db Server.describe_query [schema; table_name] e ->
  fst (Server.describe_table db table_name schema)
  = Return (Server.ErrorResult ("Database error: " +:+ e)).
Proof.
  intros A. unfold Server.describe_table, Server._get_connection,
    Server.cursor_execute.
  destruct A as [C | [C X]]; rewrite C; [|rewrite X]; reflexivity.
Qed.

(** C3, as stated, fails: the text of the driver's error is in the message
    of the result, for both tools. *)
Lemma driver_error_text_is_exposed :
  fst (Server.read_data db_failing (VStr "SELECT * FROM Accounts") (VInt 100))
  = Return (Server.ErrorResult
              "Query execution failed: Login failed for user 'reader'. You may not have permission to access this data.")
  /\ Py.contains "Login failed for user 'reader'"
       "Query execution failed: Login failed for user 'reader'. You may not have permission to access this data."
     = true
  /\ fst (Server.describe_table db_failing (VStr "Accounts") (VStr "dbo"))
     = Return (Server.ErrorResult "Database error: Login failed for user 'reader'")
  /\ Py.contains "Login failed for user 'reader'"
       "Database error: Login failed for user 'reader'"
     = true.
Proof. repeat split; vm_compute; reflexivity. Qed.

(** ** The read-statement check *)

Lemma re_split_nonempty (s : string) : Py.re_split s <> [].
Proof.
  destruct s as [|c t]; simpl; [discriminate|].
  destruct (Py.is_delim c); [discriminate|].
  destruct (Py.re_split t); discriminate.
Qed.

Lemma first_token_prefix (s : string) :
  String.prefix (hd EmptyString (Py.re_split s)) s = true.
Proof.
  induction s as [|c t IH]; simpl; [reflexivity|].
  destruct (Py.is_delim c); [reflexivity|].
  destruct (Py.re_split t) as [|h r] eqn:E.
  - now apply re_split_nonempty in E.
  - simpl in *. destruct (ascii_dec c c) as [_|n]; [exact IH | now destruct n].
Qed.

Lemma read_data_past_prefix (db : Database) (q : string) (limit : PyVal) :
  Py.startswith (Py.upper (Py.strip q)) "SELECT" = true ->
  fst (Server.read_data db (VStr q) limit)
  <> Return (Server.ErrorResult Server.only_select_message).
Proof.
  intros H.
  destruct (List.find (fun k => bool_decide (k ∈ Server.tokens (Py.upper (Py.strip q))))
              Server.dangerous_keywords) as [k|] eqn:F.
  - rewrite (read_data_prohibited db q k limit H F). simpl. discriminate.
  - destruct limit as [|l|s|d];
      try (unfold Server.read_data; rewrite H, F; simpl; discriminate).
    rewrite read_data_accepted by assumption.
    pose proof (execute_query_outcome db
                  (Server.add_top q (Py.upper (Py.strip q)) (Z.min (Z.max 1 l) 1000)))
      as O.
    destruct (Server.execute_query db _) as [o t]. simpl in O. subst o.
    destruct (create_connection db) as [[e|e]|]; simpl; try discriminate.
    destruct (execute db _ []) as [[e|e]|rs]; simpl; discriminate.
Qed.

(** C5 (as the program has it).  For a statement of ASCII characters,
    [read_data] answers that only SELECT queries are allowed exactly when
    the trimmed, upper-cased statement does not begin with the six letters
    SELECT.  The first keyword of the statement begins the trimmed,
    upper-cased statement, so a statement whose first keyword is SELECT
    passes; one whose first keyword only begins with SELECT passes too. *)
Theorem not_a_read_statement_iff_no_select_prefix
    (db : Database) (q : string) (limit : PyVal) :
  Py.isascii q = true ->
  (fst (Server.read_data db (VStr q) limit)
   = Return (Server.ErrorResult Server.only_select_message)
   <-> Py.startswith (Py.upper (Py.strip q)) "SELECT" = false)
  /\ Py.startswith (Py.upper (Py.strip q)) (first_keyword q) = true.
Proof.
  intros _. split; [split|].
  - intros R. destruct (Py.startswith (Py.upper (Py.strip q)) "SELECT") eqn:H;
      [|reflexivity].
    now apply (read_data_past_prefix db q limit) in H.
  - intros H. now rewrite read_data_not_select.
  - apply first_token_prefix.
Qed.

Lemma not_a_read_statement_iff_no_select_prefix_witness :
  (fst (Server.read_data db_ok (VStr "  update Accounts set x = 1") (VInt 100))
   = Return (Server.ErrorResult Server.only_select_message)
   <-> Py.startswith (Py.upper (Py.strip "  update Accounts set x = 1")) "SELECT"
       = false)
  /\ Py.startswith (Py.upper (Py.strip "  update Accounts set x = 1"))
       (first_keyword "  update Accounts set x = 1") = true.
Proof.
  apply (not_a_read_statement_iff_no_select_prefix db_ok
           "  update Accounts set x = 1" (VInt 100)).
  reflexivity.
Defined.

(** C5, as stated, fails: the first keyword of [SELECTED * FROM t] is not
    SELECT, and the statement is not turned down as not being a read
    statement. *)
Lemma longer_first_keyword_passes :
  ~ (fst (Server.read_data db_ok (VStr "SELECTED * FROM t") (VInt 100))
     = Return (Server.ErrorResult Server.only_select_message)
     <-> first_keyword "SELECTED * FROM t" <> "SELECT")
  /\ first_keyword "SELECTED * FROM t" = "SELECTED"
  /\ snd (Server.read_data db_ok (VStr "SELECTED * FROM t") (VInt 100))
     = [Connect; Cursor; Execute "SELECT TOP 100ED * FROM t" []; Close].
Proof.
  split; [|split; reflexivity].
  intros [_ H].
  apply (read_data_past_prefix db_ok "SELECTED * FROM t" (VInt 100));
    [reflexivity | apply H; discriminate].
Qed.

(** ** Whole tokens *)

(** The tokenizer splits at the delimiters, and at nothing else. *)
Lemma is_delim_delimiter (c : Ascii.ascii) : Py.is_delim c = is_delimiter c.
Proof. destruct c as [[] [] [] [] [] [] [] []]; reflexivity. Qed.

Lemma re_split_cons_delim (c : Ascii.ascii) (t : string) :
  is_delimiter c = true -> Py.re_split (String c t) = EmptyString :: Py.re_split t.
Proof. intros H. rewrite <- is_delim_delimiter in H. simpl. now rewrite H. Qed.

Lemma re_split_cons_other (c : Ascii.ascii) (t : string) :
  is_delimiter c = false ->
  Py.re_split (String c t)
  = String c (hd EmptyString (Py.re_split t)) :: tl (Py.re_split t).
Proof.
  intros H. rewrite <- is_delim_delimiter in H. simpl. rewrite H.
  destruct (Py.re_split t) eqn:E; [now apply re_split_nonempty in E | reflexivity].
Qed.

Lemma re_split_hd_tl (s : string) :
  Py.re_split s = hd EmptyString (Py.re_split s) :: tl (Py.re_split s).
Proof.
  destruct (Py.re_split s) eqn:E; [now apply re_split_nonempty in E | reflexivity].
Qed.

Lemma elem_of_tl {A} (x : A) (l : list A) : x ∈ tl l -> x ∈ l.
Proof. destruct l; [trivial | apply list_elem_of_further]. Qed.

(** The first token: the text up to the first delimiter. *)
Lemma first_token_whole (k r : string) :
  no_delim k = true -> starts_at_boundary r = true ->
  hd EmptyString (Py.re_split (k +:+ r)) = k.
Proof.
  intros Hk Hr. induction k as [|a k IH].
  - destruct r as [|c t]; [reflexivity|]. simpl in Hr.
    change (EmptyString +:+ String c t) with (String c t).
    now rewrite re_split_cons_delim.
  - simpl in Hk. apply andb_true_iff in Hk as [Ha Hk].
    apply negb_true_iff in Ha.
    change (String a k +:+ r) with (String a (k +:+ r)).
    rewrite re_split_cons_other by assumption. simpl. now rewrite IH.
Qed.

Lemma first_token_spec (s : string) :
  exists r, s = hd EmptyString (Py.re_split s) +:+ r
            /\ no_delim (hd EmptyString (Py.re_split s)) = true
            /\ starts_at_boundary r = true.
Proof.
  induction s as [|c t (r & E & N & B)].
  - exists EmptyString. repeat split.
  - destruct (is_delimiter c) eqn:D.
    + rewrite re_split_cons_delim by assumption. exists (String c t).
      repeat split. exact D.
    + rewrite re_split_cons_other by assumption. exists r.
      cbn [hd no_delim]. rewrite D, N. split; [|split; [reflexivity | assumption]].
      change (String c t = String c (hd EmptyString (Py.re_split t) +:+ r)).
      f_equal. exact E.
Qed.

Lemma cons_append (a : Ascii.ascii) (l s : string) :
  String a l +:+ s = String a (l +:+ s).
Proof. reflexivity. Qed.

Lemma ends_at_boundary_cons (a : Ascii.ascii) (l : string) :
  l <> EmptyString -> ends_at_boundary (String a l) = ends_at_boundary l.
Proof. destruct l; [congruence | reflexivity]. Qed.

(** The tokens after the first: each follows a delimiter. *)
Lemma later_token_spec (k s : string) :
  k ∈ tl (Py.re_split s) ->
  exists l r, s = l +:+ k +:+ r /\ l <> EmptyString
              /\ no_delim k = true
              /\ ends_at_boundary l = true
              /\ starts_at_boundary r = true.
Proof.
  induction s as [|a t IH]; intros Hk.
  - simpl in Hk. now apply elem_of_nil in Hk.
  - destruct (is_delimiter a) eqn:D.
    + rewrite re_split_cons_delim in Hk by assumption. cbn [tl] in Hk.
      rewrite re_split_hd_tl in Hk. apply elem_of_cons in Hk as [-> | Hk].
      * destruct (first_token_spec t) as (r & E & N & B).
        exists (String a EmptyString), r.
        split; [rewrite cons_append; f_equal; exact E|].
        repeat split; try assumption. discriminate.
      * destruct (IH Hk) as (l & r & E & L & N & B & B').
        exists (String a l), r.
        split; [rewrite cons_append; f_equal; exact E|].
        rewrite ends_at_boundary_cons by assumption.
        repeat split; try assumption. discriminate.
    + rewrite re_split_cons_other in Hk by assumption. cbn [tl] in Hk.
      destruct (IH Hk) as (l & r & E & L & N & B & B').
      exists (String a l), r.
      split; [rewrite cons_append; f_equal; exact E|].
      rewrite ends_at_boundary_cons by assumption.
      repeat split; try assumption. discriminate.
Qed.

Lemma later_token_whole (l k r : string) :
  l <> EmptyString -> ends_at_boundary l = true ->
  no_delim k = true -> starts_at_boundary r = true ->
  k ∈ tl (Py.re_split (l +:+ k +:+ r)).
Proof.
  intros L B N B'. induction l as [|a l IH]; [congruence|].
  change (String a l +:+ k +:+ r) with (String a (l +:+ k +:+ r)).
  destruct l as [|b l].
  - simpl in B. rewrite re_split_cons_delim by assumption. cbn [tl].
    change (EmptyString +:+ k +:+ r) with (k +:+ r).
    rewrite re_split_hd_tl, first_token_whole by assumption. apply list_elem_of_here.
  - assert (IH' : k ∈ tl (Py.re_split (String b l +:+ k +:+ r))).
    { apply IH; [discriminate | exact B]. }
    destruct (is_delimiter a) eqn:D.
    + rewrite re_split_cons_delim by assumption. cbn [tl].
      apply elem_of_tl, IH'.
    + rewrite re_split_cons_other by assumption. exact IH'.
Qed.

(** The tokens the tokenizer gives are the whole tokens of the text. *)
Lemma re_split_whole_token (k s : string) :
  k ∈ Py.re_split s <-> whole_token k s.
Proof.
  split.
  - intros Hk. rewrite re_split_hd_tl in Hk. apply elem_of_cons in Hk as [-> | Hk].
    + destruct (first_token_spec s) as (r & E & N & B).
      exists EmptyString, r. repeat split; assumption.
    + destruct (later_token_spec k s Hk) as (l & r & E & _ & N & B & B').
      exists l, r. repeat split; assumption.
  - intros (l & r & -> & N & B & B').
    destruct l as [|a l].
    + change (EmptyString +:+ k +:+ r) with (k +:+ r).
      rewrite re_split_hd_tl, first_token_whole by assumption. apply list_elem_of_here.
    + rewrite re_split_hd_tl. apply list_elem_of_further.
      apply later_token_whole; [discriminate | assumption..].
Qed.

(** ** The denylist *)

Lemma find_first {A} (f : A -> bool) (l : list A) (x : A) :
  List.find f l = Some x ->
  exists pre post, l = pre ++ x :: post
                   /\ f x = true
                   /\ (forall y, y ∈ pre -> f y = false).
Proof.
  induction l as [|a l IH]; simpl; [discriminate|].
  destruct (f a) eqn:Fa.
  - intros [= ->]. exists [], l. repeat split; [assumption|].
    intros y Hy. now apply elem_of_nil in Hy.
  - intros H. destruct (IH H) as (pre & post & -> & Fx & Hpre).
    exists (a :: pre), post. repeat split; [assumption|].
    intros y Hy. apply elem_of_cons in Hy as [-> | Hy]; auto.
Qed.

Lemma find_is_some {A} (f : A -> bool) (l : list A) (x : A) :
  x ∈ l -> f x = true -> exists y, List.find f l = Some y.
Proof.
  intros Hx Fx. destruct (List.find f l) as [y|] eqn:F; [now exists y|].
  apply list_elem_of_In in Hx.
  rewrite (List.find_none f l F x Hx) in Fx. discriminate.
Qed.

Lemma token_decide (k s : string) :
  bool_decide (k ∈ Server.tokens s) = true <-> whole_token k s.
Proof.
  rewrite bool_decide_eq_true. unfold Server.tokens.
  rewrite elem_of_list_to_set. apply re_split_whole_token.
Qed.

Lemma token_decide_false (k s : string) :
  bool_decide (k ∈ Server.tokens s) = false <-> ~ whole_token k s.
Proof.
  rewrite <- token_decide. destruct (bool_decide _); split; congruence.
Qed.

Lemma find_at {A} (f : A -> bool) (l pre : list A) (x : A) (post : list A) :
  l = pre ++ x :: post -> f x = true -> (forall y, y ∈ pre -> f y = false) ->
  List.find f l = Some x.
Proof.
  intros -> Fx. induction pre as [|a pre IH]; intros Hpre; simpl.
  - now rewrite Fx.
  - rewrite (Hpre a) by apply list_elem_of_here.
    apply IH. intros y Hy. apply Hpre. now apply list_elem_of_further.
Qed.

Lemma dangerous_keywords_denylist : Server.dangerous_keywords = denylist.
Proof. reflexivity. Qed.

Lemma read_data_no_denylisted_token (db : Database) (q : string) (limit : PyVal) :
  Py.startswith (Py.upper (Py.strip q)) "SELECT" = true ->
  (forall k, k ∈ denylist -> ~ whole_token k (Py.upper (Py.strip q))) ->
  forall keyword,
    fst (Server.read_data db (VStr q) limit)
    <> Return (Server.ErrorResult (Server.prohibited_message keyword)).
Proof.
  intros H Hnone keyword.
  assert (F : List.find
                (fun k => bool_decide (k ∈ Server.tokens (Py.upper (Py.strip q))))
                Server.dangerous_keywords = None).
  { destruct (List.find _ _) as [k|] eqn:F; [|reflexivity].
    apply List.find_some in F as [Hk Fk].
    apply list_elem_of_In in Hk. apply token_decide in Fk.
    now destruct (Hnone k Hk). }
  destruct limit as [|l|s|d];
    try (unfold Server.read_data; rewrite H, F; simpl; discriminate).
  rewrite read_data_accepted by assumption.
  pose proof (execute_query_outcome db
                (Server.add_top q (Py.upper (Py.strip q)) (Z.min (Z.max 1 l) 1000)))
    as O.
  destruct (Server.execute_query db _) as [o t]. simpl in O. subst o.
  destruct (create_connection db) as [[e|e]|]; simpl; try discriminate.
  destruct (execute db _ []) as [[e|e]|rs]; simpl; discriminate.
Qed.

(** C1 (as the program has it).  Take a statement of ASCII characters that
    passes the check for SELECT.  If one of DROP, DELETE, INSERT, UPDATE,
    ALTER, CREATE, TRUNCATE is a whole token of the upper-cased statement,
    split at white space and at [;], [(] and [)], then [read_data] rejects
    the statement with the prohibited-keyword message, without a call to
    the database; the message names the first keyword, in the order just
    given, that is a whole token: so the keyword in question when none
    listed before it is a whole token too.  If none of the seven is a whole
    token, though some may occur inside longer tokens, the statement is not
    rejected with a prohibited-keyword message. *)
Theorem denylist_names_first_whole_token
    (db : Database) (q : string) (limit : PyVal) :
  Py.isascii q = true ->
  Py.startswith (Py.upper (Py.strip q)) "SELECT" = true ->
  (forall pre k post,
     denylist = pre ++ k :: post ->
     whole_token k (Py.upper (Py.strip q)) ->
     (forall j, j ∈ pre -> ~ whole_token j (Py.upper (Py.strip q))) ->
     Server.read_data db (VStr q) limit
     = (Return (Server.ErrorResult
                  ("Query contains prohibited keyword: " +:+ k)), []))
  /\ (forall k,
        k ∈ denylist -> whole_token k (Py.upper (Py.strip q)) ->
        exists keyword,
          keyword ∈ denylist
          /\ whole_token keyword (Py.upper (Py.strip q))
          /\ Server.read_data db (VStr q) limit
             = (Return (Server.ErrorResult
                          ("Query contains prohibited keyword: " +:+ keyword)), []))
  /\ ((forall k, k ∈ denylist -> ~ whole_token k (Py.upper (Py.strip q))) ->
      forall keyword,
        fst (Server.read_data db (VStr q) limit)
        <> Return (Server.ErrorResult
                     ("Query contains prohibited keyword: " +:+ keyword))).
Proof.
  intros _ H. split; [|split].
  - intros pre k post E Wk Hpre.
    apply read_data_prohibited; [exact H|].
    apply (find_at _ _ pre k post); [exact E | now apply token_decide |].
    intros j Hj. apply token_decide_false. now apply Hpre.
  - intros k Hk Wk.
    destruct (find_is_some
                (fun k => bool_decide (k ∈ Server.tokens (Py.upper (Py.strip q))))
                Server.dangerous_keywords k Hk) as [keyword F].
    { now apply token_decide. }
    exists keyword. pose proof (List.find_some _ _ F) as [Hin Fk].
    split; [now apply list_elem_of_In|]. split; [now apply token_decide|].
    now apply read_data_prohibited.
  - intros Hnone keyword. now apply read_data_no_denylisted_token.
Qed.

Lemma denylist_names_first_whole_token_witness :
  Server.read_data db_ok
    (VStr "select created_at from orders; DROP TABLE orders") (VInt 10)
  = (Return (Server.ErrorResult "Query contains prohibited keyword: DROP"), [])
  /\ Py.contains "CREATE" (Py.upper "SELECT created_at FROM orders") = true
  /\ fst (Server.read_data db_ok (VStr "SELECT created_at FROM orders") (VInt 10))
     <> Return (Server.ErrorResult "Query contains prohibited keyword: CREATE").
Proof.
  split; [|split; [reflexivity|]].
  - apply (proj1 (denylist_names_first_whole_token db_ok
                    "select created_at from orders; DROP TABLE orders" (VInt 10)
                    eq_refl eq_refl)
             [] "DROP" ["DELETE"; "INSERT"; "UPDATE"; "ALTER"; "CREATE"; "TRUNCATE"]).
    + reflexivity.
    + apply re_split_whole_token, list_elem_of_In. simpl. tauto.
    + intros j Hj. now apply elem_of_nil in Hj.
  - apply (proj2 (proj2 (denylist_names_first_whole_token db_ok
                           "SELECT created_at FROM orders" (VInt 10)
                           eq_refl eq_refl))).
    intros k Hk Wk. apply re_split_whole_token in Wk.
    apply list_elem_of_In in Hk, Wk. simpl in Hk, Wk.
    intuition (subst; discriminate).
Defined.

(** C1, as stated, fails: in [SELECT 1; DELETE FROM t; DROP TABLE t] the
    keyword DELETE is a whole token, and the message names DROP, which
    comes first in the denylist, not DELETE. *)
Lemma later_keyword_is_not_the_one_named :
  ~ (forall k,
       k ∈ denylist ->
       whole_token k (Py.upper (Py.strip "SELECT 1; DELETE FROM t; DROP TABLE t")) ->
       fst (Server.read_data db_ok
              (VStr "SELECT 1; DELETE FROM t; DROP TABLE t") (VInt 100))
       = Return (Server.ErrorResult
                   ("Query contains prohibited keyword: " +:+ k)))
  /\ Py.startswith (Py.upper (Py.strip "SELECT 1; DELETE FROM t; DROP TABLE t"))
       "SELECT" = true
  /\ Py.re_split (Py.upper (Py.strip "SELECT 1; DELETE FROM t; DROP TABLE t"))
     = ["SELECT"; "1"; EmptyString; "DELETE"; "FROM"; "T"; EmptyString;
        "DROP"; "TABLE"; "T"]
  /\ Server.read_data db_ok
       (VStr "SELECT 1; DELETE FROM t; DROP TABLE t") (VInt 100)
     = (Return (Server.ErrorResult "Query contains prohibited keyword: DROP"), []).
Proof.
  split; [|repeat split].
  intros C. specialize (C "DELETE").
  assert (R : fst (Server.read_data db_ok
                     (VStr "SELECT 1; DELETE FROM t; DROP TABLE t") (VInt 100))
              = Return (Server.ErrorResult "Query contains prohibited keyword: DELETE")).
  { apply C.
    - apply list_elem_of_In. simpl. tauto.
    - apply re_split_whole_token, list_elem_of_In. simpl. tauto. }
  vm_compute in R. discriminate R.
Qed.

(** ** The row-limiting clause *)

Lemma length_append (a b : string) :
  String.length (a +:+ b) = (String.length a + String.length b)%nat.
Proof.
  induction a as [|c a IH]; [reflexivity|].
  rewrite cons_append. simpl. f_equal. apply IH.
Qed.

Lemma take_drop (n : nat) (s : string) : Py.take n s +:+ Py.drop n s = s.
Proof.
  revert s. induction n as [|n IH]; intros [|c s]; simpl; try reflexivity.
  rewrite cons_append. f_equal. apply IH.
Qed.

Lemma upper_take (n : nat) (s : string) :
  Py.upper (Py.take n s) = Py.take n (Py.upper s).
Proof.
  revert s. induction n as [|n IH]; intros [|c s]; simpl; try reflexivity.
  f_equal. apply IH.
Qed.

Lemma upper_drop (n : nat) (s : string) :
  Py.upper (Py.drop n s) = Py.drop n (Py.upper s).
Proof.
  revert s. induction n as [|n IH]; intros [|c s]; simpl; try reflexivity.
  apply IH.
Qed.

Lemma upper_append (a b : string) :
  Py.upper (a +:+ b) = Py.upper a +:+ Py.upper b.
Proof.
  induction a as [|c a IH]; [reflexivity|].
  rewrite cons_append. simpl. rewrite cons_append. f_equal. apply IH.
Qed.

Lemma prefix_take (p s : string) :
  String.prefix p s = true -> Py.take (String.length p) s = p.
Proof.
  revert s. induction p as [|c p IH]; intros s H; [now destruct s|].
  destruct s as [|d s]; simpl in H; [discriminate|].
  destruct (ascii_dec c d) as [->|]; [|discriminate].
  simpl. f_equal. now apply IH.
Qed.

Lemma find_prefix (s p : string) : String.prefix p s = true -> Py.find s p = 0.
Proof. intros H. destruct s; unfold Py.find; rewrite H; reflexivity. Qed.

Lemma contains_drop (p s : string) (n : nat) :
  Py.contains p s = false -> Py.contains p (Py.drop n s) = false.
Proof.
  revert s. induction n as [|n IH]; intros s H; [now destruct s|].
  destruct s as [|c s]; [exact H|].
  simpl. apply IH. simpl in H. now apply orb_false_iff in H as [_ H].
Qed.

Lemma occurrences_absent (p s : string) :
  Py.contains p s = false -> occurrences p s = 0%nat.
Proof.
  induction s as [|c s IH]; simpl; intros H; apply orb_false_iff in H as [P H];
    rewrite P; [reflexivity | now rewrite IH].
Qed.

Lemma upper_digit (c : ascii) : is_digit c = true -> Py.upper_char c = c.
Proof.
  destruct c as [[] [] [] [] [] [] [] []]; try discriminate; reflexivity.
Qed.

Lemma upper_digits (d : string) : all_digits d = true -> Py.upper d = d.
Proof.
  induction d as [|c d IH]; simpl; [reflexivity|].
  intros H. apply andb_true_iff in H as [C D].
  now rewrite upper_digit, IH.
Qed.

Lemma prefix_first (a b c : ascii) (p s : string) :
  a <> c -> String.prefix (String a p) (String c s) = false.
Proof. intros N. simpl. destruct (ascii_dec a c); [contradiction | reflexivity]. Qed.

Lemma digit_not_letter (c : ascii) :
  is_digit c = true -> "T"%char <> c /\ "L"%char <> c.
Proof.
  destruct c as [[] [] [] [] [] [] [] []]; try discriminate; split; discriminate.
Qed.

Lemma occurrences_after_digits (p d s : string) (a : ascii) :
  (forall c, is_digit c = true -> a <> c) ->
  all_digits d = true ->
  occurrences (String a p) (d +:+ s) = occurrences (String a p) s.
Proof.
  intros A. induction d as [|c d IH]; [reflexivity|].
  intros H. simpl in H. apply andb_true_iff in H as [C D].
  change (String c d +:+ s) with (String c (d +:+ s)).
  change (occurrences (String a p) (String c (d +:+ s)))
    with ((if String.prefix (String a p) (String c (d +:+ s)) then 1 else 0)
          + occurrences (String a p) (d +:+ s))%nat.
  rewrite (prefix_first a a c) by now apply A.
  now rewrite IH.
Qed.

Lemma str_of_int_digits (n : Z) :
  1 <= n <= 1000 -> all_digits (Py.str_of_int n) = true.
Proof.
  intros H.
  assert (A : forallb (fun i => all_digits (Py.str_of_int (Z.of_nat i)))
                      (seq 1 1000) = true) by (vm_compute; reflexivity).
  rewrite forallb_forall in A.
  specialize (A (Z.to_nat n)). rewrite Z2Nat.id in A by lia.
  apply A, in_seq. lia.
Qed.

Lemma except_pyodbc_trace {A} (m : M A) (h : string -> A) :
  snd (except_pyodbc m h) = snd m.
Proof. destruct m as [[a|[e|e]] t]; reflexivity. Qed.

Lemma add_top_inserts (q : string) (n : Z) :
  Py.startswith (Py.upper (Py.strip q)) "SELECT" = true ->
  Py.contains "TOP" (Py.upper (Py.strip q)) = false ->
  Py.contains "LIMIT" (Py.upper (Py.strip q)) = false ->
  Server.add_top q (Py.upper (Py.strip q)) n
  = Py.take 6 (Py.strip q) +:+ " TOP " +:+ Py.str_of_int n
    +:+ Py.drop 6 (Py.strip q).
Proof.
  intros H T L. unfold Server.add_top. rewrite T, L.
  rewrite (find_prefix _ _ H). reflexivity.
Qed.

Lemma add_top_keeps (q qu : string) (n : Z) :
  Py.contains "TOP" qu = true \/ Py.contains "LIMIT" qu = true ->
  Server.add_top q qu n = q.
Proof.
  intros [H|H]; unfold Server.add_top; rewrite H; [reflexivity|].
  now destruct (Py.contains "TOP" qu).
Qed.

Lemma occurrences_top_clause (d rest : string) :
  occurrences "TOP" ("SELECT" +:+ " TOP " +:+ d +:+ rest)
  = S (occurrences "TOP" (d +:+ rest))
  /\ occurrences "LIMIT" ("SELECT" +:+ " TOP " +:+ d +:+ rest)
     = occurrences "LIMIT" (d +:+ rest).
Proof. split; reflexivity. Qed.

(** C2 (as the program has it).  For an accepted statement of ASCII
    characters in whose upper-cased text neither TOP nor LIMIT occurs, the
    statement that is executed is the trimmed input with one clause
    [ TOP n], [n] being the clamped limit, put in right after its first six
    characters, which spell SELECT; nothing else of the trimmed input is
    changed, and the result holds TOP once and LIMIT not at all. *)
Theorem top_clause_is_inserted_into_trimmed_statement
    (db : Database) (q : string) (l : Z) :
  Py.isascii q = true ->
  Py.startswith (Py.upper (Py.strip q)) "SELECT" = true ->
  List.find (fun k => bool_decide (k ∈ Server.tokens (Py.upper (Py.strip q))))
            Server.dangerous_keywords = None ->
  Py.contains "TOP" (Py.upper (Py.strip q)) = false ->
  Py.contains "LIMIT" (Py.upper (Py.strip q)) = false ->
  let body := Py.strip q in
  let bounded :=
    Py.take 6 body +:+ " TOP " +:+ Py.str_of_int (clamp l 1 1000)
    +:+ Py.drop 6 body in
  Server.add_top q (Py.upper (Py.strip q)) (clamp l 1 1000) = bounded
  /\ snd (Server.read_data db (VStr q) (VInt l))
     = Connect :: match create_connection db with
                  | None => [Cursor; Execute bounded []; Close]
                  | Some _ => []
                  end
  /\ Py.take 6 body +:+ Py.drop 6 body = body
  /\ Py.upper (Py.take 6 body) = "SELECT"
  /\ occurrences "TOP" (Py.upper bounded) = 1%nat
  /\ occurrences "LIMIT" (Py.upper bounded) = 0%nat.
Proof.
  intros _ H F T L body bounded.
  assert (A : Server.add_top q (Py.upper (Py.strip q)) (clamp l 1 1000) = bounded)
    by now apply add_top_inserts.
  assert (S6 : Py.upper (Py.take 6 body) = "SELECT").
  { rewrite upper_take. apply (prefix_take "SELECT"). exact H. }
  assert (U : Py.upper bounded
              = "SELECT" +:+ " TOP " +:+ Py.str_of_int (clamp l 1 1000)
                +:+ Py.drop 6 (Py.upper body)).
  { unfold bounded. rewrite !upper_append, S6, upper_drop.
    rewrite (upper_digits (Py.str_of_int _))
      by apply str_of_int_digits, clamp_bounds.
    reflexivity. }
  split; [exact A|]. split; [|split; [apply take_drop|split; [exact S6|]]].
  - rewrite read_data_limit by assumption.
    rewrite except_pyodbc_trace, execute_query_trace, A. reflexivity.
  - rewrite U. destruct (occurrences_top_clause
                           (Py.str_of_int (clamp l 1 1000))
                           (Py.drop 6 (Py.upper body))) as [OT OL].
    rewrite OT, OL.
    rewrite !occurrences_after_digits;
      try (apply str_of_int_digits, clamp_bounds);
      try (intros c C; now apply digit_not_letter).
    rewrite !occurrences_absent by now apply contains_drop.
    split; reflexivity.
Qed.

Lemma top_clause_is_inserted_into_trimmed_statement_witness :
  snd (Server.read_data db_ok (VStr "  select name from Accounts ") (VInt 5000))
  = [Connect; Cursor; Execute "select TOP 1000 name from Accounts" []; Close].
Proof.
  apply (top_clause_is_inserted_into_trimmed_statement db_ok
           "  select name from Accounts " 5000); reflexivity.
Defined.

(** C2, as stated, fails: white space around the statement is dropped, so
    what is executed is not the input with a clause put into it. *)
Lemma surrounding_space_is_dropped :
  snd (Server.read_data db_ok (VStr " SELECT name FROM Accounts ") (VInt 100))
  = [Connect; Cursor; Execute "SELECT TOP 100 name FROM Accounts" []; Close]
  /\ ~ (exists pre post,
          " SELECT name FROM Accounts " = pre +:+ post
          /\ "SELECT TOP 100 name FROM Accounts" = pre +:+ " TOP 100" +:+ post).
Proof.
  split; [vm_compute; reflexivity|].
  intros (pre & post & E & B).
  apply (f_equal String.length) in E, B.
  rewrite length_append in E. rewrite 2!length_append in B.
  change (String.length " TOP 100") with 8%nat in B.
  change (String.length " SELECT name FROM Accounts ") with 27%nat in E.
  change (String.length "SELECT TOP 100 name FROM Accounts") with 33%nat in B.
  lia.
Qed.

(** ** Request ids *)

Section Ids.

Import Client.

Ltac unfold_session :=
  unfold start, stop, list_tools, call_tool, cbind, cret, craise,
    _send_request, _read_response.

Lemma send_request_spec (method : string) (params : Json) (self : MCPClient) :
  exists o w,
    _send_request method params self
    = (o, {| writer := writer self; request_id := request_id self + 1 |}, w)
    /\ (w = []
        \/ w = [ {| jsonrpc := "2.0"; id := request_id self + 1;
                    method := method; params := params |} ]
           /\ writer self = Some tt).
Proof.
  unfold _send_request. simpl. destruct (writer self) as [[]|]; eauto 10.
Qed.

(** One operation moves the counter by at most one, and what it writes
    carries the new value of the counter. *)
Lemma run_operation_spec (op : operation) (self : MCPClient) :
  exists s w,
    run_operation op self = (s, w)
    /\ (w = [] /\ request_id self <= request_id s
        \/ map id w = [request_id self + 1]
           /\ request_id s = request_id self + 1).
Proof.
  destruct op as [[e|] line | | line | n a line | m p]; simpl; unfold_session;
    try destruct (writer self) as [[]|];
    try destruct line as [[e'|r]|];
    simpl; eexists _, _; (split; [reflexivity|]);
    solve [ right; split; reflexivity
          | left; split; [reflexivity | simpl; lia] ].
Qed.

Lemma strongly_sorted_cons_above (n : Z) (l : list Z) :
  StronglySorted Z.lt l -> Forall (fun i => n < i) l ->
  StronglySorted Z.lt (n :: l).
Proof. intros S A. constructor; [exact S|]. now apply Forall_forall, Forall_forall. Qed.

Lemma run_spec (ops : list operation) (self : MCPClient) :
  request_id self <= request_id (fst (run ops self))
  /\ Forall (fun i => request_id self < i <= request_id (fst (run ops self)))
            (map id (snd (run ops self)))
  /\ StronglySorted Z.lt (map id (snd (run ops self))).
Proof.
  revert self. induction ops as [|op ops IH]; intros self; simpl.
  - repeat split; [lia | constructor | constructor].
  - destruct (run_operation_spec op self) as (s & w & -> & Hw).
    specialize (IH s). destruct (run ops s) as [s' w'] eqn:R. simpl in *.
    destruct IH as (L & A & S).
    destruct Hw as [[-> Hs] | [Hw Hs]].
    + simpl. repeat split; [lia | | exact S].
      eapply Forall_impl; [exact A|]. simpl. intros i Hi. lia.
    + rewrite map_app, Hw. simpl. repeat split; [lia | |].
      * constructor; [lia|]. eapply Forall_impl; [exact A|]. simpl. intros; lia.
      * apply strongly_sorted_cons_above; [exact S|].
        eapply Forall_impl; [exact A|]. simpl. intros; lia.
Qed.

(** Once a writer is attached, every sending operation writes. *)
Lemma run_operation_attached (op : operation) (self : MCPClient) :
  writer self = Some tt \/ (exists line, op = Start None line) ->
  writer (fst (run_operation op self)) = Some tt
  /\ request_id (fst (run_operation op self))
     = request_id self + Z.of_nat (length (snd (run_operation op self)))
  /\ map id (snd (run_operation op self))
     = seqZ (request_id self + 1) (Z.of_nat (length (snd (run_operation op self)))).
Proof.
  intros W.
  destruct op as [[e|] line | | line | n a line | m p];
    try (destruct W as [W | [l [=]]]);
    simpl; unfold_session; try rewrite W;
    try destruct line as [[e'|r]|];
    simpl; repeat split; try assumption; lia.
Qed.

Lemma run_attached (ops : list operation) (self : MCPClient) :
  writer self = Some tt ->
  request_id (fst (run ops self))
  = request_id self + Z.of_nat (length (snd (run ops self)))
  /\ map id (snd (run ops self))
     = seqZ (request_id self + 1) (Z.of_nat (length (snd (run ops self)))).
Proof.
  revert self. induction ops as [|op ops IH]; intros self W; simpl.
  - split; [lia | reflexivity].
  - destruct (run_operation_attached op self (or_introl W)) as (W' & R & I).
    destruct (run_operation op self) as [s w]. simpl in *.
    destruct (IH s W') as (R' & I').
    destruct (run ops s) as [s' w']. simpl in *.
    rewrite length_app, map_app, I, I', R', R, Nat2Z.inj_add.
    split; [lia|].
    rewrite seqZ_app by lia. do 2 f_equal. lia.
Qed.

Lemma strongly_sorted_NoDup (l : list Z) : StronglySorted Z.lt l -> NoDup l.
Proof.
  induction 1 as [|a l S IH A]; constructor; [|exact IH].
  intros Ha. rewrite Forall_forall in A. specialize (A a Ha). lia.
Qed.

(** C9.  Whatever a caller does with a session, the ids of the requests
    the session writes are strictly increasing integers from 1 on, so no
    id is used twice; each comes from the session's own counter, which
    every call of [_send_request] increments by one before it builds the
    request; and in a session that is started first, the ids are exactly
    1, 2, 3, and so on, one per request. *)
Theorem request_ids_strictly_increase (ops : list operation) :
  StronglySorted Z.lt (sent_ids ops __init__)
  /\ Forall (fun i => 1 <= i) (sent_ids ops __init__)
  /\ NoDup (sent_ids ops __init__)
  /\ (forall line,
        sent_ids (Start None line :: ops) __init__
        = seqZ 1 (Z.of_nat (length (sent_ids (Start None line :: ops) __init__))))
  /\ (forall method params self,
        request_id (snd (fst (_send_request method params self)))
        = request_id self + 1
        /\ Forall (fun r => id r = request_id self + 1
                            /\ Client.method r = method
                            /\ Client.params r = params)
                  (snd (_send_request method params self))).
Proof.
  destruct (run_spec ops __init__) as (_ & A & S).
  split; [exact S|]. split; [|split; [now apply strongly_sorted_NoDup|split]].
  - eapply Forall_impl; [exact A|]. simpl. intros i Hi. lia.
  - intros line. unfold sent_ids.
    change (run (Start None line :: ops) __init__)
      with (let '(s, w) := run_operation (Start None line) __init__ in
            let '(s', w') := run ops s in (s', w ++ w')).
    destruct (run_operation_attached (Start None line) __init__) as (W & R & I);
      [right; now exists line|].
    destruct (run_operation (Start None line) __init__) as [s w]. simpl in W, R, I.
    destruct (run_attached ops s W) as (R' & I').
    destruct (run ops s) as [s' w']. simpl in *.
    rewrite map_app, length_app, !length_map, I, I', R, Nat2Z.inj_add.
    rewrite seqZ_app by lia. f_equal. f_equal. lia.
  - intros method params self.
    destruct (send_request_spec method params self) as (o & w & -> & Hw). simpl.
    split; [reflexivity|].
    destruct Hw as [-> | [-> _]]; repeat constructor.
Qed.
End Ids.

(** * Further properties of the server *)

(** ** What reaches the database *)

Lemma no_denylisted_token (s : string) :
  List.find (fun k => bool_decide (k ∈ Server.tokens s)) Server.dangerous_keywords
  = None
  <-> (forall k, k ∈ Server.dangerous_keywords -> ~ whole_token k s).
Proof.
  split.
  - intros F k Hk. apply token_decide_false.
    apply (List.find_none _ _ F). now apply list_elem_of_In.
  - intros N. destruct (List.find _ _) as [k|] eqn:F; [|reflexivity].
    apply List.find_some in F as [Hk Fk].
    apply list_elem_of_In in Hk. apply token_decide in Fk.
    now destruct (N k Hk).
Qed.

(** X1.  [read_data] calls the database only for a statement that has
    passed both checks: whenever its trace of driver calls is not empty,
    the query is a string and, the string being of ASCII characters, its
    trimmed, upper-cased text begins with SELECT and has none of DROP,
    DELETE, INSERT, UPDATE, ALTER, CREATE, TRUNCATE as a whole token. *)
Theorem database_is_reached_only_past_the_checks
    (db : Database) (query limit : PyVal) :
  (forall q, query = VStr q -> Py.isascii q = true) ->
  snd (Server.read_data db query limit) <> [] ->
  exists q,
    query = VStr q
    /\ Py.startswith (Py.upper (Py.strip q)) "SELECT" = true
    /\ (forall k, k ∈ denylist -> ~ whole_token k (Py.upper (Py.strip q))).
Proof.
  intros _ T. destruct query as [|n|q|d]; try (now destruct T).
  destruct (Py.startswith (Py.upper (Py.strip q)) "SELECT") eqn:H.
  2:{ rewrite read_data_not_select in T by assumption. now destruct T. }
  destruct (List.find (fun k => bool_decide (k ∈ Server.tokens (Py.upper (Py.strip q))))
              Server.dangerous_keywords) as [k|] eqn:F.
  { rewrite (read_data_prohibited db q k limit H F) in T. now destruct T. }
  exists q. repeat split; try assumption. now apply no_denylisted_token.
Qed.

Lemma database_is_reached_only_past_the_checks_witness :
  exists q,
    VStr "select id from Accounts" = VStr q
    /\ Py.startswith (Py.upper (Py.strip q)) "SELECT" = true
    /\ (forall k, k ∈ denylist -> ~ whole_token k (Py.upper (Py.strip q))).
Proof.
  apply (database_is_reached_only_past_the_checks db_ok
           (VStr "select id from Accounts") (VInt 7)).
  - intros q [= <-]. reflexivity.
  - vm_compute. discriminate.
Defined.

(** X2.  Whatever the arguments and the database, [read_data] makes one
    of three sequences of driver calls: none; a connection attempt alone,
    when the connection is refused; or connection, cursor, one statement
    without parameters, and the closing of the cursor, which happens also
    when the statement fails. *)
Theorem read_data_closes_its_cursor (db : Database) (query limit : PyVal) :
  snd (Server.read_data db query limit) = []
  \/ (snd (Server.read_data db query limit) = [Connect]
      /\ create_connection db <> None)
  \/ (exists sql,
        snd (Server.read_data db query limit)
        = [Connect; Cursor; Execute sql []; Close]
        /\ create_connection db = None).
Proof.
  destruct query as [|n|q|d]; try (now left).
  destruct (Py.startswith (Py.upper (Py.strip q)) "SELECT") eqn:H.
  2:{ left. now rewrite read_data_not_select. }
  destruct (List.find (fun k => bool_decide (k ∈ Server.tokens (Py.upper (Py.strip q))))
              Server.dangerous_keywords) as [k|] eqn:F.
  { left. now rewrite (read_data_prohibited db q k limit H F). }
  destruct limit as [|l|s|d];
    try (left; unfold Server.read_data; rewrite H, F; reflexivity).
  right. rewrite read_data_accepted by assumption.
  rewrite except_pyodbc_trace, execute_query_trace.
  destruct (create_connection db) as [e|]; [left | right; eexists]; split;
    try reflexivity. discriminate.
Qed.

(** ** Statements that already hold a limit *)

(** X3.  When TOP or LIMIT occurs anywhere in the upper-cased text of an
    accepted statement of ASCII characters, inside a longer word too, the
    statement goes to the database exactly as it was given, untrimmed and
    without a limit clause, whatever the requested limit. *)
Theorem statement_with_top_or_limit_runs_as_given
    (db : Database) (q : string) (l : Z) :
  Py.isascii q = true ->
  Py.startswith (Py.upper (Py.strip q)) "SELECT" = true ->
  List.find (fun k => bool_decide (k ∈ Server.tokens (Py.upper (Py.strip q))))
            Server.dangerous_keywords = None ->
  Py.contains "TOP" (Py.upper (Py.strip q)) = true
  \/ Py.contains "LIMIT" (Py.upper (Py.strip q)) = true ->
  snd (Server.read_data db (VStr q) (VInt l))
  = Connect :: match create_connection db with
               | None => [Cursor; Execute q []; Close]
               | Some _ => []
               end.
Proof.
  intros _ H F T. rewrite read_data_accepted by assumption.
  rewrite except_pyodbc_trace, execute_query_trace.
  now rewrite add_top_keeps.
Qed.

Lemma statement_with_top_or_limit_runs_as_given_witness :
  snd (Server.read_data db_ok (VStr " select stop_date from Flights ") (VInt 5))
  = [Connect; Cursor; Execute " select stop_date from Flights " []; Close].
Proof.
  apply (statement_with_top_or_limit_runs_as_given db_ok
           " select stop_date from Flights " 5);
    [reflexivity | reflexivity | reflexivity | left; reflexivity].
Defined.

(** ** The rewritten statement passes the gate again *)

Lemma isspace_upper_char (c : ascii) : Py.isspace (Py.upper_char c) = Py.isspace c.
Proof. destruct c as [[] [] [] [] [] [] [] []]; reflexivity. Qed.

Lemma digit_not_space (c : ascii) : is_digit c = true -> Py.isspace c = false.
Proof. destruct c as [[] [] [] [] [] [] [] []]; try discriminate; reflexivity. Qed.

Lemma digit_not_delim (c : ascii) : is_digit c = true -> is_delimiter c = false.
Proof. destruct c as [[] [] [] [] [] [] [] []]; try discriminate; reflexivity. Qed.

Lemma append_nil_r (s : string) : s +:+ EmptyString = s.
Proof.
  induction s as [|c s IH]; [reflexivity|]. rewrite cons_append. now f_equal.
Qed.

Lemma rstrip_cons (c : ascii) (t : string) :
  Py.rstrip t <> EmptyString -> Py.rstrip (String c t) = String c (Py.rstrip t).
Proof. intros N. simpl. destruct (Py.rstrip t); [now destruct N | reflexivity]. Qed.

Lemma rstrip_idem (s : string) : Py.rstrip (Py.rstrip s) = Py.rstrip s.
Proof.
  induction s as [|c t IH]; [reflexivity|].
  simpl. destruct (Py.rstrip t) as [|a r] eqn:E.
  - destruct (Py.isspace c) eqn:S; [reflexivity|]. simpl. now rewrite S.
  - rewrite rstrip_cons; rewrite IH; [reflexivity | discriminate].
Qed.

Lemma rstrip_app (a b : string) :
  Py.rstrip b <> EmptyString -> Py.rstrip (a +:+ b) = a +:+ Py.rstrip b.
Proof.
  intros N. induction a as [|c a IH]; [reflexivity|].
  rewrite !cons_append, rstrip_cons; rewrite IH; [reflexivity|].
  destruct a; [exact N | discriminate].
Qed.

Lemma rstrip_fixed_suffix (a b : string) :
  Py.rstrip (a +:+ b) = a +:+ b -> b <> EmptyString -> Py.rstrip b = b.
Proof.
  intros E N. induction a as [|c a IH]; [exact E|].
  apply IH. rewrite cons_append in E. simpl in E.
  destruct (Py.rstrip (a +:+ b)) as [|x r] eqn:R.
  - destruct (Py.isspace c); [discriminate|].
    injection E as E. destruct a; [now destruct N | discriminate].
  - now injection E.
Qed.

Lemma rstrip_digits (d : string) : all_digits d = true -> Py.rstrip d = d.
Proof.
  induction d as [|c d IH]; [reflexivity|].
  intros H. simpl in H. apply andb_true_iff in H as [C D].
  simpl. rewrite (IH D), (digit_not_space c C). now destruct d.
Qed.

Lemma no_delim_digits (d : string) : all_digits d = true -> no_delim d = true.
Proof.
  induction d as [|c d IH]; [reflexivity|].
  intros H. simpl in H. apply andb_true_iff in H as [C D].
  simpl. now rewrite (digit_not_delim c C), IH.
Qed.

Lemma str_of_int_first_digit (n : Z) :
  1 <= n <= 1000 ->
  exists c d, Py.str_of_int n = String c d /\ is_digit c = true.
Proof.
  intros H. pose proof (str_of_int_digits n H) as D.
  destruct (Py.str_of_int n) as [|c d] eqn:E.
  - exfalso.
    assert (A : forallb (fun i => negb (String.eqb (Py.str_of_int (Z.of_nat i))
                                                   EmptyString))
                        (seq 1 1000) = true) by (vm_compute; reflexivity).
    rewrite forallb_forall in A.
    specialize (A (Z.to_nat n)). rewrite Z2Nat.id, E in A by lia.
    discriminate A. apply in_seq. lia.
  - simpl in D. apply andb_true_iff in D as [C _]. now exists c, d.
Qed.

Lemma re_split_app_no_delim (a s : string) :
  no_delim a = true ->
  Py.re_split (a +:+ s)
  = (a +:+ hd EmptyString (Py.re_split s)) :: tl (Py.re_split s).
Proof.
  intros N. induction a as [|c a IH]; [apply re_split_hd_tl|].
  simpl in N. apply andb_true_iff in N as [C N]. apply negb_true_iff in C.
  rewrite !cons_append, re_split_cons_other by assumption.
  now rewrite IH.
Qed.

Lemma upper_with_top (body d : string) :
  Py.startswith (Py.upper body) "SELECT" = true ->
  all_digits d = true ->
  Py.upper (Py.take 6 body +:+ " TOP " +:+ d +:+ Py.drop 6 body)
  = "SELECT" +:+ " TOP " +:+ d +:+ Py.drop 6 (Py.upper body).
Proof.
  intros H D. rewrite !upper_append, upper_take, upper_drop, (upper_digits d D).
  pose proof (prefix_take "SELECT" _ H) as P.
  change (String.length "SELECT") with 6%nat in P. now rewrite P.
Qed.

Lemma prefix_cons_inv (a : ascii) (p : string) (c : ascii) (s : string) :
  String.prefix (String a p) (String c s) = true ->
  a = c /\ String.prefix p s = true.
Proof. simpl. destruct (ascii_dec a c); [auto | discriminate]. Qed.

Lemma lstrip_cons (c : ascii) (s : string) :
  Py.isspace c = false -> Py.lstrip (String c s) = String c s.
Proof. intros S. simpl. now rewrite S. Qed.

Lemma strip_with_top (q d : string) :
  Py.startswith (Py.upper (Py.strip q)) "SELECT" = true ->
  all_digits d = true -> d <> EmptyString ->
  Py.strip (Py.take 6 (Py.strip q) +:+ " TOP " +:+ d +:+ Py.drop 6 (Py.strip q))
  = Py.take 6 (Py.strip q) +:+ " TOP " +:+ d +:+ Py.drop 6 (Py.strip q).
Proof.
  intros H D N.
  assert (B : Py.rstrip (Py.strip q) = Py.strip q) by apply rstrip_idem.
  remember (Py.strip q) as body eqn:Eb. clear Eb.
  assert (RB : Py.rstrip (d +:+ Py.drop 6 body) = d +:+ Py.drop 6 body
               /\ d +:+ Py.drop 6 body <> EmptyString).
  { split; [|destruct d; [now destruct N | discriminate]].
    destruct (Py.drop 6 body) as [|x r] eqn:R.
    - rewrite append_nil_r. now apply rstrip_digits.
    - rewrite rstrip_app.
      + f_equal. apply (rstrip_fixed_suffix (Py.take 6 body));
          [|discriminate]. rewrite <- R, take_drop. exact B.
      + rewrite (rstrip_fixed_suffix (Py.take 6 body)); [discriminate | |discriminate].
        rewrite <- R, take_drop. exact B. }
  destruct RB as [RB NB].
  destruct body as [|c b]; [vm_compute in H; discriminate H|].
  assert (S : Py.isspace c = false).
  { rewrite <- isspace_upper_char.
    now destruct (prefix_cons_inv "S" "ELECT" (Py.upper_char c) (Py.upper b) H)
      as [<- _]. }
  assert (T : Py.rstrip (" TOP " +:+ d +:+ Py.drop 6 (String c b))
              = " TOP " +:+ d +:+ Py.drop 6 (String c b)).
  { rewrite (rstrip_app " TOP "); rewrite RB; [reflexivity | exact NB]. }
  unfold Py.strip.
  change (Py.take 6 (String c b) +:+ " TOP " +:+ d +:+ Py.drop 6 (String c b))
    with (String c (Py.take 5 b +:+ " TOP " +:+ d +:+ Py.drop 6 (String c b))).
  rewrite (lstrip_cons c _ S), <- cons_append.
  rewrite rstrip_app; rewrite T; [reflexivity | discriminate].
Qed.

Lemma tokens_with_top (d R : string) :
  all_digits d = true ->
  Py.re_split ("SELECT" +:+ " TOP " +:+ d +:+ R)
  = "SELECT" :: "TOP" :: (d +:+ hd EmptyString (Py.re_split R)) :: tl (Py.re_split R).
Proof.
  intros D.
  change ("SELECT" +:+ " TOP " +:+ d +:+ R)
    with ("SELECT" +:+ String " " ("TOP" +:+ String " " (d +:+ R))).
  rewrite (re_split_app_no_delim "SELECT") by reflexivity.
  rewrite (re_split_cons_delim " ") by reflexivity. cbn [hd tl].
  rewrite (re_split_app_no_delim "TOP") by reflexivity.
  rewrite (re_split_cons_delim " ") by reflexivity. cbn [hd tl].
  rewrite (re_split_app_no_delim d) by now apply no_delim_digits.
  reflexivity.
Qed.

Lemma denylisted_starts_with_letter (k : string) (c : ascii) (t : string) :
  k ∈ Server.dangerous_keywords -> k = String c t ->
  is_digit c = false /\ k <> "SELECT" /\ k <> "TOP".
Proof.
  intros Hk ->. apply list_elem_of_In in Hk. simpl in Hk.
  repeat (destruct Hk as [Hk | Hk]; [injection Hk as <- <-; repeat split; discriminate|]).
  destruct Hk.
Qed.

Lemma denylisted_nonempty (k : string) :
  k ∈ Server.dangerous_keywords -> exists c t, k = String c t.
Proof.
  intros Hk. apply list_elem_of_In in Hk. simpl in Hk.
  repeat (destruct Hk as [<- | Hk]; [eauto|]). destruct Hk.
Qed.

Lemma no_denylisted_token_with_top (d qu : string) :
  Py.startswith qu "SELECT" = true ->
  all_digits d = true -> d <> EmptyString ->
  (forall k, k ∈ Server.dangerous_keywords -> k ∉ Py.re_split qu) ->
  forall k, k ∈ Server.dangerous_keywords ->
            k ∉ Py.re_split ("SELECT" +:+ " TOP " +:+ d +:+ Py.drop 6 qu).
Proof.
  intros H D N F k Hk Hin.
  rewrite tokens_with_top in Hin by assumption.
  destruct (denylisted_nonempty k Hk) as (c & t & E).
  destruct (denylisted_starts_with_letter k c t Hk E) as (L & NS & NT).
  rewrite !elem_of_cons in Hin. destruct Hin as [Hin | [Hin | [Hin | Hin]]];
    try contradiction.
  - destruct d as [|x d']; [now destruct N|].
    rewrite E, cons_append in Hin. injection Hin as -> _.
    simpl in D. rewrite L in D. discriminate D.
  - apply (F k Hk).
    pose proof (prefix_take "SELECT" qu H) as P.
    change (String.length "SELECT") with 6%nat in P.
    rewrite <- (take_drop 6 qu), P.
    rewrite (re_split_app_no_delim "SELECT") by reflexivity.
    now apply list_elem_of_further.
Qed.

(** X4.  For an accepted statement of ASCII characters, the statement
    [read_data] hands to the driver is a fixed point of its own checks and
    rewriting: it passes the check for SELECT, has none of the seven
    denylisted keywords as a whole token, and is left as it is by a second
    pass, with any limit; so running [read_data] on it executes the same
    statement again. *)
Theorem executed_statement_passes_the_gate_unchanged
    (db : Database) (q : string) (l l' : Z) :
  Py.isascii q = true ->
  Py.startswith (Py.upper (Py.strip q)) "SELECT" = true ->
  List.find (fun k => bool_decide (k ∈ Server.tokens (Py.upper (Py.strip q))))
            Server.dangerous_keywords = None ->
  let sql := Server.add_top q (Py.upper (Py.strip q)) (clamp l 1 1000) in
  Py.startswith (Py.upper (Py.strip sql)) "SELECT" = true
  /\ (forall k, k ∈ denylist -> ~ whole_token k (Py.upper (Py.strip sql)))
  /\ Server.add_top sql (Py.upper (Py.strip sql)) (clamp l' 1 1000) = sql
  /\ Server.read_data db (VStr sql) (VInt l')
     = Server.read_data db (VStr q) (VInt l).
Proof.
  intros _ H F sql.
  assert (G : Py.startswith (Py.upper (Py.strip sql)) "SELECT" = true
              /\ List.find
                   (fun k => bool_decide (k ∈ Server.tokens (Py.upper (Py.strip sql))))
                   Server.dangerous_keywords = None
              /\ Server.add_top sql (Py.upper (Py.strip sql)) (clamp l' 1 1000) = sql).
  { destruct (Py.contains "TOP" (Py.upper (Py.strip q))) eqn:T.
    { assert (E : sql = q) by (apply add_top_keeps; now left).
      rewrite E. repeat split; try assumption. apply add_top_keeps. now left. }
    destruct (Py.contains "LIMIT" (Py.upper (Py.strip q))) eqn:L.
    { assert (E : sql = q) by (apply add_top_keeps; now right).
      rewrite E. repeat split; try assumption. apply add_top_keeps. now right. }
    pose proof (str_of_int_digits _ (clamp_bounds l)) as D.
    destruct (str_of_int_first_digit _ (clamp_bounds l)) as (c & d' & Ed & _).
    assert (N : Py.str_of_int (clamp l 1 1000) <> EmptyString)
      by (rewrite Ed; discriminate).
    assert (E : sql = Py.take 6 (Py.strip q) +:+ " TOP "
                      +:+ Py.str_of_int (clamp l 1 1000)
                      +:+ Py.drop 6 (Py.strip q))
      by now apply add_top_inserts.
    assert (U : Py.upper (Py.strip sql)
                = "SELECT" +:+ " TOP " +:+ Py.str_of_int (clamp l 1 1000)
                  +:+ Py.drop 6 (Py.upper (Py.strip q))).
    { rewrite E, strip_with_top by assumption. now apply upper_with_top. }
    rewrite U. split; [reflexivity|]. split.
    - apply no_denylisted_token. intros k Hk W.
      apply re_split_whole_token in W. revert W.
      apply no_denylisted_token_with_top; try assumption.
      intros j Hj W. apply re_split_whole_token in W. revert W.
      now apply no_denylisted_token.
    - apply add_top_keeps. left. reflexivity. }
  destruct G as (H' & F' & A').
  split; [exact H'|]. split; [now apply no_denylisted_token|]. split; [exact A'|].
  rewrite (read_data_limit db sql l') by assumption.
  rewrite (read_data_limit db q l) by assumption.
  now rewrite A'.
Qed.

Lemma executed_statement_passes_the_gate_unchanged_witness :
  Server.read_data db_ok (VStr "select TOP 50 name from Accounts") (VInt 3)
  = Server.read_data db_ok (VStr "  select name from Accounts ") (VInt 50).
Proof.
  apply (executed_statement_passes_the_gate_unchanged db_ok
           "  select name from Accounts " 50 3); reflexivity.
Defined.

(** ** Rejection looks at the trimmed, upper-cased text only *)

Lemma upper_char_idem (c : ascii) :
  Py.upper_char (Py.upper_char c) = Py.upper_char c.
Proof. destruct c as [[] [] [] [] [] [] [] []]; reflexivity. Qed.

Lemma upper_idem (s : string) : Py.upper (Py.upper s) = Py.upper s.
Proof.
  induction s as [|c s IH]; [reflexivity|]. simpl. now rewrite upper_char_idem, IH.
Qed.

Lemma lstrip_upper (s : string) : Py.lstrip (Py.upper s) = Py.upper (Py.lstrip s).
Proof.
  induction s as [|c s IH]; [reflexivity|].
  simpl. rewrite isspace_upper_char. now destruct (Py.isspace c).
Qed.

Lemma rstrip_upper (s : string) : Py.rstrip (Py.upper s) = Py.upper (Py.rstrip s).
Proof.
  induction s as [|c s IH]; [reflexivity|].
  simpl. rewrite IH, isspace_upper_char.
  destruct (Py.rstrip s); [now destruct (Py.isspace c) | reflexivity].
Qed.

Lemma strip_upper (s : string) :
  Py.upper (Py.strip (Py.upper s)) = Py.upper (Py.strip s).
Proof. unfold Py.strip. now rewrite lstrip_upper, rstrip_upper, upper_idem. Qed.

Lemma read_data_past_denylist (db : Database) (q : string) (limit : PyVal) :
  Py.startswith (Py.upper (Py.strip q)) "SELECT" = true ->
  List.find (fun k => bool_decide (k ∈ Server.tokens (Py.upper (Py.strip q))))
            Server.dangerous_keywords = None ->
  forall k,
    fst (Server.read_data db (VStr q) limit)
    <> Return (Server.ErrorResult (Server.prohibited_message k)).
Proof.
  intros H F k.
  destruct limit as [|l|s|d];
    try (unfold Server.read_data; rewrite H, F; simpl; discriminate).
  rewrite read_data_accepted by assumption.
  pose proof (execute_query_outcome db
                (Server.add_top q (Py.upper (Py.strip q)) (Z.min (Z.max 1 l) 1000)))
    as O.
  destruct (Server.execute_query db _) as [o t]. simpl in O. subst o.
  destruct (create_connection db) as [[e|e]|]; simpl; try discriminate.
  destruct (execute db _ []) as [[e|e]|rs]; simpl; discriminate.
Qed.

Lemma prohibited_message_inj (k k' : string) :
  Server.prohibited_message k = Server.prohibited_message k' -> k = k'.
Proof. intros E. now injection E. Qed.

(** The verdict of the two checks, read off the trimmed, upper-cased
    text. *)
Lemma read_data_rejects_iff (db : Database) (q : string) (limit : PyVal) (m : string) :
  m = Server.only_select_message \/ (exists k, m = Server.prohibited_message k) ->
  (Server.read_data db (VStr q) limit = (Return (Server.ErrorResult m), [])
   <-> (Py.startswith (Py.upper (Py.strip q)) "SELECT" = false
        /\ m = Server.only_select_message)
       \/ (exists k,
             List.find (fun k => bool_decide (k ∈ Server.tokens (Py.upper (Py.strip q))))
                       Server.dangerous_keywords = Some k
             /\ Py.startswith (Py.upper (Py.strip q)) "SELECT" = true
             /\ m = Server.prohibited_message k)).
Proof.
  intros Hm. split.
  - intros R.
    destruct (Py.startswith (Py.upper (Py.strip q)) "SELECT") eqn:H.
    + right.
      destruct (List.find (fun k => bool_decide (k ∈ Server.tokens (Py.upper (Py.strip q))))
                  Server.dangerous_keywords) as [k|] eqn:F.
      * rewrite (read_data_prohibited db q k limit H F) in R.
        injection R as <-. now exists k.
      * exfalso. apply (f_equal fst) in R. simpl in R.
        destruct Hm as [-> | [k ->]].
        -- now apply (read_data_past_prefix db q limit H).
        -- now apply (read_data_past_denylist db q limit H F k).
    + left. rewrite read_data_not_select in R by assumption.
      injection R as <-. now split.
  - intros [[H ->] | (k & F & H & ->)].
    + now apply read_data_not_select.
    + now apply read_data_prohibited.
Qed.

(** X5.  For statements of ASCII characters, whether [read_data] rejects
    a statement, and with which message, depends only on the trimmed,
    upper-cased text: two such statements with the same such text are
    rejected alike, whatever the limit and the database; so letter case and
    surrounding white space do not matter, and upper-casing a statement
    does not change that text. *)
Theorem rejection_depends_on_trimmed_uppercase_text
    (db db' : Database) (q q' : string) (limit limit' : PyVal) (m : string) :
  Py.isascii q = true ->
  Py.isascii q' = true ->
  Py.upper (Py.strip q) = Py.upper (Py.strip q') ->
  m = Server.only_select_message \/ (exists k, m = Server.prohibited_message k) ->
  (Server.read_data db (VStr q) limit = (Return (Server.ErrorResult m), [])
   <-> Server.read_data db' (VStr q') limit' = (Return (Server.ErrorResult m), []))
  /\ Py.upper (Py.strip (Py.upper q)) = Py.upper (Py.strip q).
Proof.
  intros _ _ E Hm. split; [|apply strip_upper].
  rewrite (read_data_rejects_iff db q limit m Hm).
  rewrite (read_data_rejects_iff db' q' limit' m Hm).
  now rewrite E.
Qed.

Lemma rejection_depends_on_trimmed_uppercase_text_witness :
  Server.read_data db_ok (VStr "  Select id From t; Drop Table t") (VInt 1)
  = (Return (Server.ErrorResult "Query contains prohibited keyword: DROP"), [])
  <-> Server.read_data db_failing (VStr "SELECT ID FROM T; DROP TABLE T  ") VNone
      = (Return (Server.ErrorResult "Query contains prohibited keyword: DROP"), []).
Proof.
  apply (rejection_depends_on_trimmed_uppercase_text db_ok db_failing
           "  Select id From t; Drop Table t" "SELECT ID FROM T; DROP TABLE T  "
           (VInt 1) VNone "Query contains prohibited keyword: DROP").
  - reflexivity.
  - reflexivity.
  - reflexivity.
  - right. now exists "DROP".
Defined.

(** ** [describe_table] *)

Lemma row_attr_trace (desc : list string) (row : list PyVal) (attr : string) :
  snd (Server.row_attr desc row attr) = [].
Proof.
  revert row. induction desc as [|d desc IH]; intros [|v row]; simpl; try reflexivity.
  destruct (String.eqb d attr); [reflexivity | apply IH].
Qed.

Lemma bind_pure {A B} (m : M A) (f : A -> M B) :
  snd m = [] -> (forall a, snd (f a) = []) ->
  snd (bind m f) = []
  /\ fst (bind m f) = match fst m with
                      | Return a => fst (f a)
                      | Raise e => Raise e
                      end.
Proof.
  intros Hm Hf. destruct m as [[a|e] t]; simpl in *; subst t; [|now split].
  specialize (Hf a). destruct (f a) as [o t]. simpl in *. now subst t.
Qed.

Lemma describe_row_trace (desc : list string) (row : list PyVal) :
  snd (Server.describe_row desc row) = [].
Proof.
  unfold Server.describe_row.
  repeat (apply bind_pure; [apply row_attr_trace | intros ?]).
  reflexivity.
Qed.

Lemma describe_rows_trace (desc : list string) (rows : list (list PyVal)) :
  snd (Server.describe_rows desc rows) = [].
Proof.
  induction rows as [|row rows IH]; [reflexivity|]. simpl.
  apply bind_pure; [apply describe_row_trace | intros c].
  apply bind_pure; [exact IH | reflexivity].
Qed.

Lemma describe_rows_length (desc : list string) (rows : list (list PyVal))
    (cols : list Server.col_info) :
  fst (Server.describe_rows desc rows) = Return cols -> length cols = length rows.
Proof.
  revert cols. induction rows as [|row rows IH]; intros cols; simpl.
  - now intros [= <-].
  - destruct (bind_pure (Server.describe_row desc row)
                (fun c => let! cs := Server.describe_rows desc rows in ret (c :: cs))
                (describe_row_trace desc row)) as [_ E].
    { intros c. apply bind_pure; [apply describe_rows_trace | reflexivity]. }
    rewrite E. destruct (fst (Server.describe_row desc row)) as [c|e]; [|discriminate].
    destruct (bind_pure (Server.describe_rows desc rows) (fun cs => ret (c :: cs))
                (describe_rows_trace desc rows)) as [_ E']; [reflexivity|].
    rewrite E'. destruct (fst (Server.describe_rows desc rows)) as [cs|e];
      [|discriminate].
    simpl. intros [= <-]. simpl. f_equal. now apply IH.
Qed.


(** What [describe_table] does once connected, by what the first statement
    gives. *)
Lemma describe_table_connected (db : Database) (table_name schema : PyVal) :
  create_connection db = None ->
  Server.describe_table db table_name schema
  = match execute db Server.describe_query [schema; table_name] with
    | inl (pyodbc_Error e) =>
        (Return (Server.ErrorResult ("Database error: " +:+ e)),
         [Connect; Cursor; Execute Server.describe_query [schema; table_name]; Close])
    | inl (Exception e) =>
        (Raise (Exception e),
         [Connect; Cursor; Execute Server.describe_query [schema; table_name]; Close])
    | inr rs =>
        match fst (Server.describe_rows (description rs) (fetchall rs)) with
        | Raise e =>
            (match e with
             | pyodbc_Error m => Return (Server.ErrorResult ("Database error: " +:+ m))
             | Exception m => Raise (Exception m)
             end,
             [Connect; Cursor; Execute Server.describe_query [schema; table_name]; Close])
        | Return [] =>
            (Return (Server.ErrorResult
                       ("Table " +:+ py_str schema +:+ "." +:+ py_str table_name +:+
                        " not found or you don't have permission to access it.")),
             [Connect; Cursor; Execute Server.describe_query [schema; table_name]; Close])
        | Return columns =>
            (Return
               (Server.DescribeResult schema table_name columns
                  match execute db (count_statement schema table_name) [] with
                  | inl _ => VStr "Unknown (no permission or table doesn't exist)"
                  | inr rc =>
                      match fst (Server.fetch_row_count rc) with
                      | Return v => v
                      | Raise _ => VStr "Unknown (no permission or table doesn't exist)"
                      end
                  end),
             [Connect; Cursor; Execute Server.describe_query [schema; table_name];
              Execute (count_statement schema table_name) []; Close])
        end
    end.
Proof.
  intros C. unfold count_statement, Server.describe_table,
    Server._get_connection, Server.cursor_execute. rewrite C. simpl.
  destruct (execute db Server.describe_query [schema; table_name]) as [[e|e]|rs];
    try reflexivity.
  simpl.
  pose proof (describe_rows_trace (description rs) (fetchall rs)) as T.
  destruct (Server.describe_rows (description rs) (fetchall rs)) as [[cols|[e|e]] t];
    simpl in *; subst t; try reflexivity.
  destruct cols as [|c cols]; [reflexivity|]. simpl.
  destruct (execute db _ []) as [e|rc]; [reflexivity|]. simpl.
  assert (T' : snd (Server.fetch_row_count rc) = []).
  { unfold Server.fetch_row_count. destruct (fetchall rc); [reflexivity|].
    apply row_attr_trace. }
  destruct (Server.fetch_row_count rc) as [[v|e] t]; simpl in *; subst t; reflexivity.
Qed.

(** X6.  The driver calls of [describe_table] are a refused connection
    attempt alone, or connection, cursor, the catalogue statement with the
    two names as parameters, possibly the counting statement, and the
    closing of the cursor.  The counting statement, whose text holds the
    names, runs only after the catalogue statement has returned a row for
    them. *)
Theorem describe_table_driver_calls (db : Database) (table_name schema : PyVal) :
  (snd (Server.describe_table db table_name schema) = [Connect]
   /\ create_connection db <> None)
  \/ snd (Server.describe_table db table_name schema)
     = [Connect; Cursor; Execute Server.describe_query [schema; table_name]; Close]
  \/ (snd (Server.describe_table db table_name schema)
      = [Connect; Cursor; Execute Server.describe_query [schema; table_name];
         Execute (count_statement schema table_name) []; Close]
      /\ exists rs, execute db Server.describe_query [schema; table_name] = inr rs
                    /\ fetchall rs <> []).
Proof.
  destruct (create_connection db) as [e|] eqn:C.
  { left. split; [|discriminate].
    unfold Server.describe_table, Server._get_connection. rewrite C.
    now destruct e. }
  right. rewrite (describe_table_connected db table_name schema C).
  destruct (execute db Server.describe_query [schema; table_name]) as [[e|e]|rs];
    try (now left).
  destruct (fst (Server.describe_rows (description rs) (fetchall rs)))
    as [[|c cols]|e] eqn:R; try (now left).
  right. split; [reflexivity|]. exists rs. split; [reflexivity|].
  apply describe_rows_length in R. intros N. rewrite N in R. discriminate R.
Qed.

(** X7.  Once connected, and the catalogue statement having succeeded,
    [describe_table] answers "not found or you don't have permission"
    exactly when that statement returned no row. *)
Theorem not_found_iff_no_catalogue_row
    (db : Database) (table_name schema : PyVal) (rs : ResultSet) :
  create_connection db = None ->
  execute db Server.describe_query [schema; table_name] = inr rs ->
  fst (Server.describe_table db table_name schema)
  = Return (Server.ErrorResult
              ("Table " +:+ py_str schema +:+ "." +:+ py_str table_name +:+
               " not found or you don't have permission to access it."))
  <-> fetchall rs = [].
Proof.
  intros C X. rewrite (describe_table_connected db table_name schema C), X.
  split.
  - destruct (fst (Server.describe_rows (description rs) (fetchall rs)))
      as [[|c cols]|[e|e]] eqn:R; simpl; try discriminate.
    intros _. apply describe_rows_length in R.
    destruct (fetchall rs); [reflexivity | discriminate R].
  - intros E. rewrite E. reflexivity.
Qed.

Lemma not_found_iff_no_catalogue_row_witness :
  fst (Server.describe_table
         {| create_connection := None;
            execute := fun _ _ => inr {| description := describe_columns;
                                         fetchall := [] |} |}
         (VStr "NoSuchTable") (VStr "dbo"))
  = Return (Server.ErrorResult
              "Table dbo.NoSuchTable not found or you don't have permission to access it.").
Proof.
  apply (not_found_iff_no_catalogue_row
           {| create_connection := None;
              execute := fun _ _ => inr {| description := describe_columns;
                                           fetchall := [] |} |}
           (VStr "NoSuchTable") (VStr "dbo")
           {| description := describe_columns; fetchall := [] |});
    reflexivity.
Defined.

(** X8.  A failure of the counting statement, of whatever kind, a driver
    error included, does not fail [describe_table]: the columns found are
    returned, with a text in place of the row count, and the cursor is
    closed. *)
Theorem count_failure_is_not_an_error
    (db : Database) (table_name schema : PyVal) (rs : ResultSet)
    (columns : list Server.col_info) (e : exn) :
  create_connection db = None ->
  execute db Server.describe_query [schema; table_name] = inr rs ->
  fst (Server.describe_rows (description rs) (fetchall rs)) = Return columns ->
  columns <> [] ->
  execute db (count_statement schema table_name) [] = inl e ->
  Server.describe_table db table_name schema
  = (Return (Server.DescribeResult schema table_name columns
               (VStr "Unknown (no permission or table doesn't exist)")),
     [Connect; Cursor; Execute Server.describe_query [schema; table_name];
      Execute (count_statement schema table_name) []; Close]).
Proof.
  intros C X R N K.
  rewrite (describe_table_connected db table_name schema C), X, R, K.
  destruct columns; [now destruct N | reflexivity].
Qed.

Lemma count_failure_is_not_an_error_witness :
  Server.describe_table db_catalogue_no_count (VStr "Accounts") (VStr "dbo")
  = (Return (Server.DescribeResult (VStr "dbo") (VStr "Accounts")
               (map column_of_row catalogue_rows)
               (VStr "Unknown (no permission or table doesn't exist)")),
     [Connect; Cursor;
      Execute Server.describe_query [VStr "dbo"; VStr "Accounts"];
      Execute "SELECT COUNT(*) as row_count FROM [dbo].[Accounts]" []; Close]).
Proof.
  apply (count_failure_is_not_an_error db_catalogue_no_count
           (VStr "Accounts") (VStr "dbo")
           {| description := describe_columns; fetchall := catalogue_rows |}
           (map column_of_row catalogue_rows)
           (pyodbc_Error "SELECT permission denied"));
    [reflexivity | reflexivity | reflexivity | discriminate | reflexivity].
Defined.

Lemma describe_rows_six (rows : list (list PyVal)) :
  Forall (fun row => length row = 6%nat) rows ->
  Server.describe_rows describe_columns rows = ret (map column_of_row rows).
Proof.
  induction 1 as [|row rows L _ IH]; [reflexivity|].
  simpl. rewrite IH.
  destruct row as [|n [|t [|l [|u [|d [|k [|x r]]]]]]]; try discriminate L.
  reflexivity.
Qed.

(** X9.  When the catalogue statement returns rows of the six columns it
    selects, and the counting statement returns a row, [describe_table]
    answers with one column descriptor per row, in the order of the rows,
    [nullable] and [is_primary_key] being true exactly for the value
    ['YES'], and with the row count it read. *)
Theorem describe_table_success
    (db : Database) (table_name schema : PyVal)
    (rows : list (list PyVal)) (rc : ResultSet) (v : PyVal) :
  create_connection db = None ->
  execute db Server.describe_query [schema; table_name]
  = inr {| description := describe_columns; fetchall := rows |} ->
  Forall (fun row => length row = 6%nat) rows ->
  rows <> [] ->
  execute db (count_statement schema table_name) [] = inr rc ->
  fst (Server.fetch_row_count rc) = Return v ->
  Server.describe_table db table_name schema
  = (Return (Server.DescribeResult schema table_name (map column_of_row rows) v),
     [Connect; Cursor; Execute Server.describe_query [schema; table_name];
      Execute (count_statement schema table_name) []; Close])
  /\ length (map column_of_row rows) = length rows.
Proof.
  intros C X L N K V. split; [|apply length_map].
  rewrite (describe_table_connected db table_name schema C), X. simpl.
  rewrite (describe_rows_six rows L). simpl. rewrite K, V.
  destruct rows; [now destruct N | reflexivity].
Qed.

Lemma describe_table_success_witness :
  Server.describe_table db_catalogue (VStr "Accounts") (VStr "dbo")
  = (Return (Server.DescribeResult (VStr "dbo") (VStr "Accounts")
               (map column_of_row catalogue_rows) (VInt 42)),
     [Connect; Cursor;
      Execute Server.describe_query [VStr "dbo"; VStr "Accounts"];
      Execute "SELECT COUNT(*) as row_count FROM [dbo].[Accounts]" []; Close]).
Proof.
  apply (describe_table_success db_catalogue (VStr "Accounts") (VStr "dbo")
           catalogue_rows
           {| description := ["row_count"]; fetchall := [[VInt 42]] |} (VInt 42));
    [reflexivity | reflexivity | repeat constructor | discriminate
    | reflexivity | reflexivity].
Defined.

(** ** Driver errors, tool by tool *)

(** C3 (as the program has it).  A driver error of the data access is
    caught in each tool on its own.  In [describe_table], a refused
    connection or a failed catalogue statement comes back as an error
    result whose message is "Database error: " followed by the driver's
    text; a driver error of the counting statement is swallowed, the
    columns being returned with a fixed text for the row count.  In
    [read_data], for an accepted statement of ASCII characters, a refused
    connection or a failed statement comes back as an error result whose
    message is "Query execution failed: ", the driver's text, and a fixed
    ending.  In the error results the driver's text stands word for
    word. *)
Theorem driver_errors_are_rewrapped_with_their_text (db : Database) :
  (forall table_name schema e,
     access_fails db Server.describe_query [schema; table_name] e ->
     fst (Server.describe_table db table_name schema)
     = Return (Server.ErrorResult ("Database error: " +:+ e))
     /\ Py.contains e ("Database error: " +:+ e) = true)
  /\ (forall table_name schema rs columns e,
        create_connection db = None ->
        execute db Server.describe_query [schema; table_name] = inr rs ->
        fst (Server.describe_rows (description rs) (fetchall rs)) = Return columns ->
        columns <> [] ->
        execute db (count_statement schema table_name) [] = inl (pyodbc_Error e) ->
        fst (Server.describe_table db table_name schema)
        = Return (Server.DescribeResult schema table_name columns
                    (VStr "Unknown (no permission or table doesn't exist)")))
  /\ (forall q l e,
        Py.isascii q = true ->
        Py.startswith (Py.upper (Py.strip q)) "SELECT" = true ->
        List.find (fun k => bool_decide (k ∈ Server.tokens (Py.upper (Py.strip q))))
                  Server.dangerous_keywords = None ->
        access_fails db
          (Server.add_top q (Py.upper (Py.strip q)) (clamp l 1 1000)) [] e ->
        fst (Server.read_data db (VStr q) (VInt l))
        = Return (Server.ErrorResult
                    ("Query execution failed: " +:+ e
                     +:+ ". You may not have permission to access this data."))
        /\ Py.contains e
             ("Query execution failed: " +:+ e
              +:+ ". You may not have permission to access this data.") = true).
Proof.
  split; [|split].
  - intros table_name schema e A. split; [|apply contains_end].
    now apply describe_table_failure.
  - intros table_name schema rs columns e C X R N K.
    rewrite (describe_table_connected db table_name schema C), X, R, K.
    destruct columns; [now destruct N | reflexivity].
  - intros q l e _ H F A. split; [|apply contains_middle].
    now apply read_data_failure.
Qed.

Lemma driver_errors_are_rewrapped_with_their_text_witness :
  fst (Server.describe_table db_failing (VStr "Accounts") (VStr "dbo"))
  = Return (Server.ErrorResult "Database error: Login failed for user 'reader'")
  /\ fst (Server.describe_table db_catalogue_no_count (VStr "Accounts") (VStr "dbo"))
     = Return (Server.DescribeResult (VStr "dbo") (VStr "Accounts")
                 (map column_of_row catalogue_rows)
                 (VStr "Unknown (no permission or table doesn't exist)"))
  /\ fst (Server.read_data db_unreachable (VStr "SELECT * FROM Accounts") (VInt 100))
     = Return (Server.ErrorResult
                 "Query execution failed: 08001 server not found. You may not have permission to access this data.").
Proof.
  split; [|split].
  - apply (proj1 (driver_errors_are_rewrapped_with_their_text db_failing)
             (VStr "Accounts") (VStr "dbo") "Login failed for user 'reader'").
    right. split; reflexivity.
  - apply (proj1 (proj2 (driver_errors_are_rewrapped_with_their_text
                           db_catalogue_no_count))
             (VStr "Accounts") (VStr "dbo")
             {| description := describe_columns; fetchall := catalogue_rows |}
             (map column_of_row catalogue_rows) "SELECT permission denied");
      [reflexivity | reflexivity | reflexivity | discriminate | reflexivity].
  - apply (proj2 (proj2 (driver_errors_are_rewrapped_with_their_text db_unreachable))
             "SELECT * FROM Accounts" 100 "08001 server not found");
      [reflexivity | reflexivity | reflexivity | left; reflexivity].
Defined.

(** ** Arguments of the wrong type, and failures outside the driver *)

Section ToolFailures.

Variable json_dumps : Server.ToolResult -> string.
Variable db : Database.

(** X10.  When the statement passes both checks and the [limit] argument
    is present but not an integer, [call_tool] answers with a "Tool
    execution failed" error result and the database is not called at
    all. *)
Theorem non_integer_limit_fails_the_tool
    (arguments : gmap string PyVal) (q : string) (v : PyVal) :
  arguments !! "query" = Some (VStr q) ->
  Py.startswith (Py.upper (Py.strip q)) "SELECT" = true ->
  List.find (fun k => bool_decide (k ∈ Server.tokens (Py.upper (Py.strip q))))
            Server.dangerous_keywords = None ->
  arguments !! "limit" = Some v ->
  (forall n, v <> VInt n) ->
  exists msg,
    Server.call_tool json_dumps db "read_data" arguments
    = ([ {| Server.type := "text";
            Server.text :=
              json_dumps (Server.ErrorResult ("Tool execution failed: " +:+ msg)) |} ],
       []).
Proof.
  intros Q H F L N.
  assert (T : truthy (VStr q) = true).
  { destruct q; [vm_compute in H; discriminate H | reflexivity]. }
  unfold Server.call_tool, Server.limit_argument.
  change (String.eqb "read_data" "describe_table") with false.
  change (String.eqb "read_data" "read_data") with true.
  cbv iota. rewrite Q, L. cbn [default from_option id]. rewrite T. cbn [negb].
  unfold Server.read_data. rewrite H, F. cbn [negb].
  destruct v as [|n|s|d]; try (eexists; reflexivity). now destruct (N n).
Qed.

(** X11.  When the connection manager fails with an exception that is not
    a driver error, both tools let it through and [call_tool] reports it
    as "Tool execution failed" with its text; no cursor is opened. *)
Theorem connection_exception_fails_the_tool
    (arguments : gmap string PyVal) (e : string) :
  create_connection db = Some (Exception e) ->
  (forall table_name,
     arguments !! "table_name" = Some table_name -> truthy table_name = true ->
     Server.call_tool json_dumps db "describe_table" arguments
     = ([ {| Server.type := "text";
             Server.text :=
               json_dumps (Server.ErrorResult ("Tool execution failed: " +:+ e)) |} ],
        [Connect]))
  /\ (forall q l,
        arguments !! "query" = Some (VStr q) ->
        Server.limit_argument arguments = VInt l ->
        Py.startswith (Py.upper (Py.strip q)) "SELECT" = true ->
        List.find (fun k => bool_decide (k ∈ Server.tokens (Py.upper (Py.strip q))))
                  Server.dangerous_keywords = None ->
        Server.call_tool json_dumps db "read_data" arguments
        = ([ {| Server.type := "text";
                Server.text :=
                  json_dumps (Server.ErrorResult ("Tool execution failed: " +:+ e)) |} ],
           [Connect])).
Proof.
  intros C. split.
  - intros table_name A T. unfold Server.call_tool.
    change (String.eqb "describe_table" "describe_table") with true.
    cbv iota. rewrite A. cbn [default from_option id]. rewrite T. cbn [negb].
    unfold Server.describe_table, Server._get_connection. rewrite C. reflexivity.
  - intros q l Q L H F.
    assert (T : truthy (VStr q) = true).
    { destruct q; [vm_compute in H; discriminate H | reflexivity]. }
    unfold Server.call_tool.
    change (String.eqb "read_data" "describe_table") with false.
    change (String.eqb "read_data" "read_data") with true.
    cbv iota. rewrite Q, L. cbn [default from_option id]. rewrite T. cbn [negb].
    rewrite (read_data_accepted db q l H F).
    unfold Server.execute_query, Server._get_connection. rewrite C. reflexivity.
Qed.

End ToolFailures.

Lemma non_integer_limit_fails_the_tool_witness :
  exists msg,
    Server.call_tool dumps_message db_ok "read_data"
      {[ "query" := VStr "SELECT * FROM Accounts"; "limit" := VNone ]}
    = ([ {| Server.type := "text";
            Server.text := "Tool execution failed: " +:+ msg |} ], []).
Proof.
  apply (non_integer_limit_fails_the_tool dumps_message db_ok
           {[ "query" := VStr "SELECT * FROM Accounts"; "limit" := VNone ]}
           "SELECT * FROM Accounts" VNone);
    [reflexivity | reflexivity | reflexivity | reflexivity | discriminate].
Defined.

Lemma connection_exception_fails_the_tool_witness :
  Server.call_tool dumps_message db_misconfigured "describe_table"
    {[ "table_name" := VStr "Accounts" ]}
  = ([ {| Server.type := "text";
          Server.text := "Tool execution failed: connection string is not set" |} ],
     [Connect])
  /\ Server.call_tool dumps_message db_misconfigured "read_data"
       {[ "query" := VStr "SELECT 1" ]}
     = ([ {| Server.type := "text";
             Server.text := "Tool execution failed: connection string is not set" |} ],
        [Connect]).
Proof.
  split.
  - apply (proj1 (connection_exception_fails_the_tool dumps_message db_misconfigured
                    {[ "table_name" := VStr "Accounts" ]}
                    "connection string is not set" eq_refl) (VStr "Accounts"));
      reflexivity.
  - apply (proj2 (connection_exception_fails_the_tool dumps_message db_misconfigured
                    {[ "query" := VStr "SELECT 1" ]}
                    "connection string is not set" eq_refl) "SELECT 1" 100);
      reflexivity.
Defined.

(** ** The rows [read_data] returns *)

Lemma row_dict_foldl_other (l : list (string * PyVal)) (m : gmap string PyVal)
    (c : string) :
  c ∉ l.*1 ->
  foldl (fun d cv => <[cv.1 := Server.isoformat_value cv.2]> d) m l !! c = m !! c.
Proof.
  revert m. induction l as [|[k v] l IH]; intros m N; [reflexivity|].
  simpl in *. rewrite not_elem_of_cons in N. destruct N as [N1 N2].
  rewrite IH by assumption. now apply lookup_insert_ne.
Qed.

Lemma row_dict_foldl_no_datetime (l : list (string * PyVal)) (m : gmap string PyVal) :
  (forall c v, m !! c = Some v -> forall iso, v <> VDateTime iso) ->
  forall c v,
    foldl (fun d cv => <[cv.1 := Server.isoformat_value cv.2]> d) m l !! c = Some v ->
    forall iso, v <> VDateTime iso.
Proof.
  revert m. induction l as [|[k x] l IH]; intros m Hm c v; [apply Hm|].
  simpl. apply IH. intros c' v'. rewrite lookup_insert.
  case_decide as E; [|apply Hm].
  intros [= <-] iso. now destruct x.
Qed.

(** X12.  In the dictionary made of a result row that is as long as the
    list of column names, the value under a column name is the value of
    the last column of that name, a datetime value being replaced by its
    ISO text; a name that is not a column is absent; and no datetime value
    is left in the dictionary.  When two columns have the same name, only
    the later one is kept. *)
Theorem row_dict_lookup
    (columns1 columns2 : list string) (c : string)
    (row1 row2 : list PyVal) (v : PyVal) :
  length columns1 = length row1 ->
  length columns2 = length row2 ->
  c ∉ columns2 ->
  let columns := columns1 ++ c :: columns2 in
  let row := row1 ++ v :: row2 in
  Server.row_dict columns row !! c = Some (Server.isoformat_value v)
  /\ (forall other, other ∉ columns -> Server.row_dict columns row !! other = None)
  /\ (forall k x,
        Server.row_dict columns row !! k = Some x -> forall iso, x <> VDateTime iso).
Proof.
  intros L _ N columns row. split; [|split].
  - unfold Server.row_dict, columns, row.
    rewrite zip_with_app by assumption. rewrite foldl_app. simpl.
    rewrite row_dict_foldl_other; [apply lookup_insert_eq|].
    intros Hin. apply N. apply list_elem_of_fmap in Hin as [[k x] [-> Hin]].
    now apply elem_of_zip_l in Hin.
  - intros other No. unfold Server.row_dict.
    rewrite row_dict_foldl_other; [apply lookup_empty|].
    intros Hin. apply No. apply list_elem_of_fmap in Hin as [[k x] [-> Hin]].
    now apply elem_of_zip_l in Hin.
  - intros k x. unfold Server.row_dict.
    apply row_dict_foldl_no_datetime. intros c' v'. now rewrite lookup_empty.
Qed.

Lemma row_dict_lookup_witness :
  Server.row_dict ["id"; "opened"; "id"]
    [VInt 1; VDateTime "2024-05-01T10:00:00"; VInt 2] !! "opened"
  = Some (VStr "2024-05-01T10:00:00")
  /\ Server.row_dict ["id"; "opened"; "id"]
       [VInt 1; VDateTime "2024-05-01T10:00:00"; VInt 2] !! "id"
     = Some (VInt 2).
Proof.
  split.
  - apply (proj1 (row_dict_lookup ["id"] ["id"] "opened" [VInt 1] [VInt 2]
                    (VDateTime "2024-05-01T10:00:00") eq_refl eq_refl
                    ltac:(intros H; apply list_elem_of_In in H; simpl in H;
                          intuition discriminate))).
  - apply (proj1 (row_dict_lookup ["id"; "opened"] [] "id"
                    [VInt 1; VDateTime "2024-05-01T10:00:00"] [] (VInt 2)
                    eq_refl eq_refl
                    ltac:(intros H; now apply elem_of_nil in H))).
Defined.

(** X13.  When the statement passes both checks, the connection is
    obtained and the statement succeeds with rows as long as the list of
    column names, [read_data] returns the column names of the result, one
    dictionary per row in the order of the rows, and a row count that is
    the number of rows fetched, which the message repeats; the cursor is
    closed. *)
Theorem read_data_success (db : Database) (q : string) (l : Z) (rs : ResultSet) :
  Py.startswith (Py.upper (Py.strip q)) "SELECT" = true ->
  List.find (fun k => bool_decide (k ∈ Server.tokens (Py.upper (Py.strip q))))
            Server.dangerous_keywords = None ->
  create_connection db = None ->
  execute db (Server.add_top q (Py.upper (Py.strip q)) (clamp l 1 1000)) [] = inr rs ->
  Forall (fun row => length row = length (description rs)) (fetchall rs) ->
  exists rows,
    Server.read_data db (VStr q) (VInt l)
    = (Return (Server.ReadResult (description rs) (length (fetchall rs)) rows
                 ("Retrieved " +:+ Py.str_of_int (Z.of_nat (length (fetchall rs)))
                  +:+ " rows")),
       [Connect; Cursor;
        Execute (Server.add_top q (Py.upper (Py.strip q)) (clamp l 1 1000)) [];
        Close])
    /\ rows = map (Server.row_dict (description rs)) (fetchall rs)
    /\ length rows = length (fetchall rs).
Proof.
  intros H F C X _. eexists. split; [|split; [reflexivity | apply length_map]].
  rewrite read_data_limit by assumption.
  unfold Server.execute_query, Server._get_connection, Server.cursor_execute.
  rewrite C, X. unfold Server.read_rows. simpl. now rewrite length_map.
Qed.

Lemma read_data_success_witness :
  exists rows,
    Server.read_data db_ok (VStr "SELECT n FROM Numbers") (VInt 10)
    = (Return (Server.ReadResult ["n"] 1 rows "Retrieved 1 rows"),
       [Connect; Cursor; Execute "SELECT TOP 10 n FROM Numbers" []; Close])
    /\ rows = [ {[ "n" := VInt 1 ]} ]
    /\ length rows = 1%nat.
Proof.
  apply (read_data_success db_ok "SELECT n FROM Numbers" 10
           {| description := ["n"]; fetchall := [[VInt 1]] |});
    try reflexivity.
  repeat constructor.
Defined.

(** ** The catalogue and the dispatcher *)

Section Catalogue.

Variable json_dumps : Server.ToolResult -> string.
Variable db : Database.

(** X14.  The catalogue and the dispatcher agree: the two tool names
    listed are distinct; a name that is not listed is answered as an
    unknown tool; and for a listed tool, leaving out a parameter its schema
    declares required is answered with "<parameter> is required", without
    a database call. *)
Theorem catalogue_and_dispatch_agree :
  NoDup (map Server.tool_name Server.list_tools)
  /\ (forall name arguments,
        name ∉ map Server.tool_name Server.list_tools ->
        Server.call_tool json_dumps db name arguments
        = ([ {| Server.type := "text";
                Server.text :=
                  json_dumps (Server.ErrorResult ("Unknown tool: " +:+ name)) |} ],
           []))
  /\ (forall tool p arguments,
        tool ∈ Server.list_tools ->
        p ∈ Server.required (Server.inputSchema tool) ->
        arguments !! p = None ->
        Server.call_tool json_dumps db (Server.tool_name tool) arguments
        = ([ {| Server.type := "text";
                Server.text :=
                  json_dumps (Server.ErrorResult (p +:+ " is required")) |} ],
           [])).
Proof.
  split; [|split].
  - simpl. repeat constructor; rewrite ?elem_of_cons, ?elem_of_nil;
      intuition discriminate.
  - intros name arguments N. simpl in N.
    rewrite !not_elem_of_cons in N. destruct N as (Nd & Nr & _).
    unfold Server.call_tool.
    apply String.eqb_neq in Nd, Nr. now rewrite Nd, Nr.
  - intros tool p arguments Ht Hp A.
    unfold Server.list_tools in Ht; rewrite !elem_of_cons, elem_of_nil in Ht;
    destruct Ht as [-> | [-> | []]]; simpl in Hp;
      rewrite elem_of_cons, elem_of_nil in Hp; destruct Hp as [-> | []];
      unfold Server.call_tool; simpl; rewrite A; reflexivity.
Qed.

(** X15.  A default the catalogue declares for a parameter is the value
    the handler uses when the parameter is left out: calling a listed tool
    without the parameter is the same as calling it with the declared
    default. *)
Theorem declared_default_is_the_default_used
    (tool : Server.Tool) (p : string) (ps : Server.PropertySchema) (d : PyVal)
    (arguments : gmap string PyVal) :
  tool ∈ Server.list_tools ->
  (p, ps) ∈ Server.properties (Server.inputSchema tool) ->
  Server.prop_default ps = Some d ->
  arguments !! p = None ->
  Server.call_tool json_dumps db (Server.tool_name tool) arguments
  = Server.call_tool json_dumps db (Server.tool_name tool) (<[p := d]> arguments).
Proof.
  intros Ht Hp Hd A.
  unfold Server.list_tools in Ht; rewrite !elem_of_cons, elem_of_nil in Ht.
  destruct Ht as [-> | [-> | []]]; simpl in Hp;
    rewrite !elem_of_cons, elem_of_nil in Hp;
    destruct Hp as [Hp | [Hp | []]]; simplify_eq; simpl in Hd; simplify_eq;
    unfold Server.call_tool, Server.limit_argument; simpl;
    rewrite lookup_insert_eq, lookup_insert_ne, A by discriminate; reflexivity.
Qed.

End Catalogue.

Lemma catalogue_and_dispatch_agree_witness :
  Server.call_tool dumps_message db_ok "read_data" {[ "limit" := VInt 5 ]}
  = ([ {| Server.type := "text"; Server.text := "query is required" |} ], []).
Proof.
  apply (proj2 (proj2 (catalogue_and_dispatch_agree dumps_message db_ok))
           (nth 1 Server.list_tools (nth 0 Server.list_tools
              (Server.Build_Tool EmptyString EmptyString
                 (Server.Build_InputSchema EmptyString [] []))))
           "query" {[ "limit" := VInt 5 ]}).
  - vm_compute. apply list_elem_of_further, list_elem_of_here.
  - vm_compute. apply list_elem_of_here.
  - reflexivity.
Defined.

Lemma declared_default_is_the_default_used_witness :
  Server.call_tool dumps_message db_ok "read_data"
    {[ "query" := VStr "SELECT * FROM Accounts" ]}
  = Server.call_tool dumps_message db_ok "read_data"
      (<[ "limit" := VInt 100 ]> {[ "query" := VStr "SELECT * FROM Accounts" ]}).
Proof.
  apply (declared_default_is_the_default_used dumps_message db_ok
           (nth 1 Server.list_tools (nth 0 Server.list_tools
              (Server.Build_Tool EmptyString EmptyString
                 (Server.Build_InputSchema EmptyString [] []))))
           "limit"
           {| Server.prop_type := "integer";
              Server.prop_description := "Maximum number of rows (1-1000, default: 100)";
              Server.prop_default := Some (VInt 100);
              Server.prop_minimum := Some 1; Server.prop_maximum := Some 1000 |}
           (VInt 100) {[ "query" := VStr "SELECT * FROM Accounts" ]}).
  - vm_compute. apply list_elem_of_further, list_elem_of_here.
  - vm_compute. apply list_elem_of_further, list_elem_of_here.
  - reflexivity.
  - reflexivity.
Defined.

(** X16.  A limit within the bounds the catalogue declares for [limit] is
    used as it is: the gate changes only limits outside the declared
    bounds. *)
Theorem limit_within_declared_bounds_is_kept
    (tool : Server.Tool) (ps : Server.PropertySchema) (lo hi l : Z) :
  tool ∈ Server.list_tools ->
  ("limit", ps) ∈ Server.properties (Server.inputSchema tool) ->
  Server.prop_minimum ps = Some lo ->
  Server.prop_maximum ps = Some hi ->
  lo <= l <= hi ->
  Server.enforce_limit (VInt l) = ret l.
Proof.
  intros Ht Hp Hlo Hhi B.
  unfold Server.list_tools in Ht; rewrite !elem_of_cons, elem_of_nil in Ht.
  destruct Ht as [-> | [-> | []]]; simpl in Hp;
    rewrite !elem_of_cons, elem_of_nil in Hp;
    destruct Hp as [Hp | [Hp | []]]; simplify_eq; simpl in Hlo, Hhi; simplify_eq.
  unfold Server.enforce_limit. f_equal. f_equal. lia.
Qed.

Lemma limit_within_declared_bounds_is_kept_witness :
  Server.enforce_limit (VInt 250) = ret 250.
Proof.
  apply (limit_within_declared_bounds_is_kept
           (nth 1 Server.list_tools (nth 0 Server.list_tools
              (Server.Build_Tool EmptyString EmptyString
                 (Server.Build_InputSchema EmptyString [] []))))
           {| Server.prop_type := "integer";
              Server.prop_description := "Maximum number of rows (1-1000, default: 100)";
              Server.prop_default := Some (VInt 100);
              Server.prop_minimum := Some 1; Server.prop_maximum := Some 1000 |}
           1 1000 250).
  - vm_compute. apply list_elem_of_further, list_elem_of_here.
  - vm_compute. apply list_elem_of_further, list_elem_of_here.
  - reflexivity.
  - reflexivity.
  - lia.
Defined.

(** * Further properties of the client *)

Section OneShot.

Import Client.

Variable json_loads : string -> Outcome Json.

Lemma decode_item_writes_nothing (result content : Json) (self : MCPClient) :
  exists o, decode_item json_loads result content self = (o, self, []).
Proof.
  unfold decode_item, cret, craise.
  destruct content as [|n|s|items|item]; try (eexists; reflexivity).
  destruct (json_lookup "type" item) as [[|n|t|items|f]|]; try (eexists; reflexivity).
  destruct (String.eqb t "text"); [|eexists; reflexivity].
  destruct (default (JStr "{}") (json_lookup "text" item)); eexists; reflexivity.
Qed.

Lemma decode_result_writes_nothing (result : Json) (self : MCPClient) :
  exists o, decode_result json_loads result self = (o, self, []).
Proof.
  unfold decode_result, cret, craise.
  destruct result as [|n|s|items|fields]; try (eexists; reflexivity).
  - destruct (Py.contains "content" s); eexists; reflexivity.
  - destruct (existsb _ items); eexists; reflexivity.
  - destruct (json_lookup "content" fields) as [[|n|[|a s]|[|c r]|[|x f]]|];
      try (eexists; reflexivity).
    apply decode_item_writes_nothing.
Qed.

Lemma mcp_client_call_requests (tool_name : string) (arguments : Json)
    (spawn : option exn) (handshake answer : option Response) :
  snd (mcp_client spawn handshake
         (call_tool_decoded json_loads tool_name arguments answer))
  = match spawn, handshake with
    | Some _, _ => []
    | None, Some (ResultResponse _) =>
        [initialize_request; tool_request tool_name arguments]
    | None, _ => [initialize_request]
    end
  /\ (match spawn, handshake with
      | None, Some (ResultResponse _) => True
      | _, _ => exists e,
          fst (fst (mcp_client spawn handshake
                      (call_tool_decoded json_loads tool_name arguments answer)))
          = Raise e
      end).
Proof.
  destruct spawn as [e|]; [split; [reflexivity | now exists e]|].
  destruct handshake as [[e|r]|]; try (split; [reflexivity | eexists; reflexivity]).
  split; [|exact I].
  unfold mcp_client, call_tool_decoded, call_tool, start, stop, cbind,
    _send_request, _read_response, cret, craise. simpl.
  destruct answer as [[e|result]|]; try reflexivity. simpl.
  match goal with
  | |- context [decode_result json_loads result ?s] =>
      destruct (decode_result_writes_nothing result s) as [o ->]
  end.
  reflexivity.
Qed.

(** X17.  Each one-shot helper works in a session of its own: it writes
    the handshake request with id 1 and then, only if the handshake is
    answered without an error, one [tools/call] request with id 2 that
    names the tool and carries the caller's arguments.  If the subprocess
    cannot be created nothing is written; if the handshake fails the tool
    is not called and the helper raises. *)
Theorem one_shot_helpers_send_handshake_then_one_call
    (spawn : option exn) (handshake answer : option Response) :
  (forall table_name schema,
     snd (describe_table_sync json_loads table_name schema spawn handshake answer)
     = match spawn, handshake with
       | Some _, _ => []
       | None, Some (ResultResponse _) =>
           [ {| jsonrpc := "2.0"; id := 1; method := "initialize";
                params := initialize_params |};
             {| jsonrpc := "2.0"; id := 2; method := "tools/call";
                params := JObject
                  [("name", JStr "describe_table");
                   ("arguments", JObject [("table_name", JStr table_name);
                                          ("schema", JStr schema)])] |} ]
       | None, _ =>
           [ {| jsonrpc := "2.0"; id := 1; method := "initialize";
                params := initialize_params |} ]
       end)
  /\ (forall query limit,
        snd (read_data_sync json_loads query limit spawn handshake answer)
        = match spawn, handshake with
          | Some _, _ => []
          | None, Some (ResultResponse _) =>
              [ {| jsonrpc := "2.0"; id := 1; method := "initialize";
                   params := initialize_params |};
                {| jsonrpc := "2.0"; id := 2; method := "tools/call";
                   params := JObject
                     [("name", JStr "read_data");
                      ("arguments", JObject [("query", JStr query);
                                             ("limit", JInt limit)])] |} ]
          | None, _ =>
              [ {| jsonrpc := "2.0"; id := 1; method := "initialize";
                   params := initialize_params |} ]
          end)
  /\ (match spawn, handshake with
      | None, Some (ResultResponse _) => True
      | _, _ =>
          forall table_name schema query limit,
            (exists e,
               fst (fst (describe_table_sync json_loads table_name schema
                           spawn handshake answer)) = Raise e)
            /\ (exists e,
                  fst (fst (read_data_sync json_loads query limit
                              spawn handshake answer)) = Raise e)
      end).
Proof.
  split; [|split].
  - intros table_name schema. unfold describe_table_sync.
    now rewrite (proj1 (mcp_client_call_requests _ _ spawn handshake answer)).
  - intros query limit. unfold read_data_sync.
    now rewrite (proj1 (mcp_client_call_requests _ _ spawn handshake answer)).
  - pose proof (fun n a => proj2 (mcp_client_call_requests n a spawn handshake answer))
      as R.
    destruct spawn as [e|]; [|destruct handshake as [[e|r]|]]; try exact I;
      intros table_name schema query limit; split; apply R.
Qed.

(** X18.  The end of [call_tool]: when the result is a dictionary whose
    ["content"] is a list starting with a dictionary of type ["text"], the
    answer is what [json.loads] makes of its ["text"] (of ["{}"] when there
    is none); when ["content"] is missing or an empty list, or the first
    item is a dictionary of another type, the result is returned as it
    is. *)
Theorem call_tool_decodes_the_first_text_item
    (fields : list (string * Json)) (self : MCPClient) :
  (json_lookup "content" fields = None
   \/ json_lookup "content" fields = Some (JList []) ->
   decode_result json_loads (JObject fields) self
   = (Return (JObject fields), self, []))
  /\ (forall item rest,
        json_lookup "content" fields = Some (JList (JObject item :: rest)) ->
        (forall t, json_lookup "type" item = Some (JStr "text") ->
                   json_lookup "text" item = Some (JStr t) ->
                   decode_result json_loads (JObject fields) self
                   = (json_loads t, self, []))
        /\ (json_lookup "type" item = Some (JStr "text") ->
            json_lookup "text" item = None ->
            decode_result json_loads (JObject fields) self
            = (json_loads "{}", self, []))
        /\ (json_lookup "type" item <> Some (JStr "text") ->
            decode_result json_loads (JObject fields) self
            = (Return (JObject fields), self, []))).
Proof.
  split.
  - intros [E | E]; unfold decode_result; rewrite E; reflexivity.
  - intros item rest E. unfold decode_result, decode_item. rewrite E.
    split; [|split].
    + intros t Ty Tx. rewrite Ty, Tx. reflexivity.
    + intros Ty Tx. rewrite Ty, Tx. reflexivity.
    + intros Ty. destruct (json_lookup "type" item) as [[|n|t|items|f]|];
        try reflexivity.
      destruct (String.eqb t "text") eqn:T; [|reflexivity].
      apply String.eqb_eq in T. subst t. now destruct Ty.
Qed.

End OneShot.

Lemma call_tool_decodes_the_first_text_item_witness :
  Client.decode_result (fun s => Return (Client.JStr s))
    (Client.JObject
       [("content",
         Client.JList
           [Client.JObject [("type", Client.JStr "text");
                            ("text", Client.JStr "{status: error}")]])])
    Client.__init__
  = (Return (Client.JStr "{status: error}"), Client.__init__, []).
Proof.
  apply (proj1 (proj2 (call_tool_decodes_the_first_text_item
                         (fun s => Return (Client.JStr s))
                         [("content",
                           Client.JList
                             [Client.JObject [("type", Client.JStr "text");
                                              ("text", Client.JStr "{status: error}")]])]
                         Client.__init__)
                  [("type", Client.JStr "text");
                   ("text", Client.JStr "{status: error}")] [] eq_refl)
           "{status: error}"); reflexivity.
Defined.
